(** * Foam CRM front end: automation editor, cloud sync menu, MCP client accessor

    A shallow embedding of three TypeScript sources

    - [src/lib/mcp.ts]                 (module [Mcp]),
    - [src/components/CloudSync.tsx]   (module [CloudSync]),
    - the automation editor component  (module [AutomationEditor]),

    followed by the properties established about them.

    Conventions.  JavaScript numbers are IEEE 754 binary64 values
    ([spec_float] at precision 53); integer identifiers and epoch
    milliseconds are [Z]; strings are byte strings.  Asynchronous handlers
    are run to completion one after the other: an [await] is a call into the
    outside world that returns either a value or a thrown error.  Whatever
    the platform or the SDK provides (the clock, locale formatting, the
    network, [Client.callTool]) is a parameter of the section that uses it. *)

From Stdlib Require Import ZArith List String Ascii Bool Lia.
From Stdlib Require Import Floats.SpecFloat.
From stdpp Require Import base gmap strings list pretty.

Open Scope string_scope.
Open Scope list_scope.

(* ===================================================================== *)
(** * JavaScript values *)
(* ===================================================================== *)

Module Js.

(** ** Thrown values and promises *)

Definition Error : Type := string.

(** What an awaited promise settles to. *)
Inductive result (A : Type) : Type :=
| Resolved (a : A)
| Rejected (e : Error).

Arguments Resolved {A} a.
Arguments Rejected {A} e.

(** ** Numbers *)

Definition number : Type := spec_float.

Definition prec : Z := 53.
Definition emax : Z := 1024.

Definition NaN : number := S754_nan.
Definition zero : number := S754_zero false.

(** [x + y] on numbers. *)
Definition add (x y : number) : number := SFadd prec emax x y.

(** The number denoted by an integer literal. *)
Definition of_Z (z : Z) : number := binary_normalize prec emax z 0 false.

(** The number nearest to the fraction [p / q] (ties to even), negated when
    [neg]: what reading the decimal text of [p / q] yields. *)
Definition of_ratio (neg : bool) (p q : positive) : number :=
  let '(mz, ez, lz) := SFdiv_core_binary prec emax (Zpos p) 0 (Zpos q) 0 in
  binary_round_aux prec emax neg mz ez lz.

(** [ToBoolean] on a number: [+0], [-0] and [NaN] are falsy. *)
Definition truthy (x : number) : bool :=
  match x with
  | S754_zero _ | S754_nan => false
  | _ => true
  end.

(** [x || d] on numbers. *)
Definition or_else (x d : number) : number := if truthy x then x else d.

(** [ToBoolean] on a string and [s || d]: only the empty string is falsy. *)
Definition str_truthy (s : string) : bool :=
  match s with
  | EmptyString => false
  | _ => true
  end.

Definition str_or_else (s d : string) : string := if str_truthy s then s else d.

(** ** [Number.prototype.toFixed]

    The text returned by [x.toFixed(f)] is kept in structured form: which of
    the four shapes of the ECMAScript algorithm applies and, for the common
    one, the integer [n] that minimises [|n / 10^f - x|] (the larger [n] on a
    tie) with the sign that is printed in front of it. *)

Inductive fixed : Type :=
| FixedNaN
| FixedInfinity (neg : bool)
| FixedExponential (x : number)          (* |x| >= 10^21: the text of ToString(x) *)
| FixedDigits (neg : bool) (n : N) (f : nat).

(** [10^21 <= m * 2^e], computed exactly. *)
Definition at_least_1e21 (m : positive) (e : Z) : bool :=
  (if 0 <=? e then 10 ^ 21 <=? Zpos m * 2 ^ e
   else 10 ^ 21 * 2 ^ (- e) <=? Zpos m)%Z.

(** [floor (m * 2^e * 10^f + 1/2)], computed exactly. *)
Definition scaled_round (m : positive) (e : Z) (f : nat) : N :=
  let num := (Zpos m * 10 ^ Z.of_nat f)%Z in
  Z.to_N (if 0 <=? e then num * 2 ^ e
          else (2 * num + 2 ^ (- e)) / 2 ^ (1 - e))%Z.

Definition toFixed (x : number) (f : nat) : fixed :=
  match x with
  | S754_nan => FixedNaN
  | S754_infinity s => FixedInfinity s
  | S754_zero _ => FixedDigits false 0 f
  | S754_finite s m e =>
      if at_least_1e21 m e then FixedExponential x
      else FixedDigits s (scaled_round m e f) f
  end.

(** [Number(text)] for a text produced by [toFixed]. *)
Definition Number (t : fixed) : number :=
  match t with
  | FixedNaN => S754_nan
  | FixedInfinity s => S754_infinity s
  | FixedExponential x => x
  | FixedDigits neg n f =>
      match n with
      | N0 => S754_zero neg
      | Npos p => of_ratio neg p (Z.to_pos (10 ^ Z.of_nat f))
      end
  end.

(** The characters of a [toFixed] result.  [exp_text] spells numbers of
    magnitude [10^21] and more (the platform's [Number::toString]). *)
Fixpoint zeros (k : nat) : string :=
  match k with
  | O => EmptyString
  | S k' => "0" +:+ zeros k'
  end.

Definition digits_text (n : N) (f : nat) : string :=
  let m := pretty n in
  match f with
  | O => m
  | S _ =>
      let m' := zeros (S f - String.length m) +:+ m in
      let k := String.length m' in
      substring 0 (k - f) m' +:+ "." +:+ substring (k - f) f m'
  end.

Definition fixed_text (exp_text : number -> string) (t : fixed) : string :=
  match t with
  | FixedNaN => "NaN"
  | FixedInfinity neg => if neg then "-Infinity" else "Infinity"
  | FixedExponential x => exp_text x
  | FixedDigits neg n f => (if neg then "-" else EmptyString) +:+ digits_text n f
  end.

(** ** Values that can be handed to [JSON.stringify] *)

#[warnings="-register-all"]
Inductive value : Type :=
| Undefined
| Null
| Bool (b : bool)
| Num (x : number)
| Str (s : string)
| Opaque (what : string)                 (* a host object such as a Blob *)
| Arr (items : list value)
| Obj (props : list (string * value)).   (* own properties, in order *)

(** Own-property lookup. *)
Fixpoint get (k : string) (props : list (string * value)) : option value :=
  match props with
  | [] => None
  | (k', v) :: rest => if String.eqb k k' then Some v else get k rest
  end.

(** [const { k1, ..., kn, ...rest } = o]: the properties of [o] whose key is
    none of the [ks], in their original order. *)
Definition omit (ks : list string) (props : list (string * value))
  : list (string * value) :=
  List.filter (fun kv => negb (existsb (String.eqb (fst kv)) ks)) props.

(** Text values.  The result of [JSON.stringify(v, null, space)] is kept as
    the value it spells and the indentation it was asked for. *)
Inductive text : Type :=
| Lit (s : string)
| JSON_stringify (v : value) (space : option nat).

(** [s.split(sep)[0]] for a one-character separator. *)
Fixpoint split_head (sep : ascii) (s : string) : string :=
  match s with
  | EmptyString => EmptyString
  | String c rest =>
      if Ascii.eqb c sep then EmptyString else String c (split_head sep rest)
  end.

(** [parts.join(sep)]. *)
Fixpoint join (sep : string) (parts : list string) : string :=
  match parts with
  | [] => EmptyString
  | [p] => p
  | p :: rest => p +:+ sep +:+ join sep rest
  end.

Definition newline : string := String (ascii_of_nat 10) EmptyString.

(** A text starts with another one. *)
Definition starts_with (x hay : string) : Prop := exists rest, hay = x +:+ rest.

(** [hay.includes(needle)] *)
Fixpoint includes (needle hay : string) : bool :=
  if String.prefix needle hay then true
  else
    match hay with
    | EmptyString => false
    | String _ rest => includes needle rest
    end.

(** What the platform decides: calendar and locale formatting of a time value
    (epoch milliseconds) and the exponent notation of large numbers. *)
Record Runtime : Type := {
  Date_toISOString : Z -> string;
  Date_toLocaleString : Z -> string;
  Date_toLocaleDateString : Z -> string;
  Number_toString : number -> string
}.

End Js.

(* ===================================================================== *)
(** * src/lib/mcp.ts *)
(* ===================================================================== *)

Module Mcp.

(** A [Client] object of the SDK: its identity on the heap and the
    implementation info it was constructed with. *)
Record Client : Type := {
  client_ref : nat;
  client_name : string;
  client_version : string
}.

(** [new Client({ name: "foam-crm-ai-client", version: "1.0.0" }, ...)],
    allocated at reference [r]. *)
Definition new_Client (r : nat) : Client :=
  {| client_ref := r; client_name := "foam-crm-ai-client"; client_version := "1.0.0" |}.

Definition PROXY_URL : string := "https://corsproxy.io/?".

Definition serverUrl : string :=
  "https://mcp.zapier.com/api/mcp/s/NmJmMGM1ODMtY2U3NS00NmU5LWE3NTEtYTc1MjA5OTZjNGZmOmQ0NzQyYTcxLWEzYzEtNDlmMy1hZTZjLWE5NjZmZjYwNTQxZQ==/mcp".

(** The module's state: the singleton slot [mcpClient], the heap allocator,
    the console, the list of URLs a connect was attempted on (oldest first),
    and the network. *)
Record State (Net : Type) : Type := {
  mcpClient : option Client;
  next_ref : nat;
  console : list string;
  connects : list string;
  net : Net
}.

Arguments mcpClient {Net} s.
Arguments next_ref {Net} s.
Arguments console {Net} s.
Arguments connects {Net} s.
Arguments net {Net} s.

Section Accessor.

(** The network, and [client.connect(transport)] for a transport built on the
    given URL: it either returns or throws. *)
Context {Net : Type}.
Variable connect : Client -> string -> Net -> option Js.Error * Net.

Definition getMcpClient (st : State Net) : Js.result Client * State Net :=
  match mcpClient st with
  | Some c => (Js.Resolved c, st)
  | None =>
      let client := new_Client (next_ref st) in
      let url := PROXY_URL +:+ serverUrl in
      let log1 := console st ++ ["Connecting to MCP server..."] in
      match connect client url (net st) with
      | (Some e, net') =>
          (Js.Rejected e,
           {| mcpClient := None;
              next_ref := S (next_ref st);
              console := log1;
              connects := connects st ++ [url];
              net := net' |})
      | (None, net') =>
          (Js.Resolved client,
           {| mcpClient := Some client;
              next_ref := S (next_ref st);
              console := log1 ++ ["MCP client connected successfully."];
              connects := connects st ++ [url];
              net := net' |})
      end
  end.

End Accessor.

End Mcp.

(* ===================================================================== *)
(** * Types the components import *)
(* ===================================================================== *)

(** The part of the MCP SDK the component uses. *)
Module Sdk.

(** The request [Client.callTool] takes: a tool name and its arguments. *)
Record ToolCall : Type := {
  name : string;
  arguments : list (string * Js.text)
}.

(** The argument of a request under a given key. *)
Definition argument (k : string) (c : ToolCall) : option Js.text :=
  snd <$> List.find (fun kv => String.eqb k (fst kv)) (arguments c).

End Sdk.

(** The types [./EstimatePDF.tsx] exports.  The file is not among the sources;
    each record has the fields the components read, and a [*_rest] field for
    whatever other properties the object carries. *)
Module EstimatePDF.

(** Modelled from the spec: the declaration of [CustomerInfo] ("customer
    identity/address") is missing.  The components read [id], [name] and
    [address]. *)
Record CustomerInfo : Type := {
  id : Z;
  name : string;
  address : option string;
  customer_rest : list (string * Js.value)
}.

(** Modelled from the spec: the declaration of [CompanyInfo] ("company
    contact/email used as the default report recipient") is missing.  The
    component reads [email], which may be absent. *)
Record CompanyInfo : Type := {
  email : option string;
  company_rest : list (string * Js.value)
}.

(** An optional property: present when it has a value. *)
Definition optional (k : string) (v : option Js.value) : list (string * Js.value) :=
  match v with
  | Some x => [(k, x)]
  | None => []
  end.

(** The object a customer is, property by property. *)
Definition customer_props (c : CustomerInfo) : list (string * Js.value) :=
  [("id", Js.Num (Js.of_Z (id c))); ("name", Js.Str (name c))]
  ++ optional "address" (Js.Str <$> address c)
  ++ customer_rest c.

End EstimatePDF.

(** The types [../lib/db.ts] exports.  The file is not among the sources. *)
Module Db.

(** Modelled from the spec: the declaration of [JobStatus] is missing; its
    values are the "fixed enumeration of job lifecycle states (estimate,
    sold, invoiced, paid)", which [JOB_STATUSES] of the editor lists. *)
Inductive JobStatus : Type := estimate | sold | invoiced | paid.

Definition JobStatus_text (s : JobStatus) : string :=
  match s with
  | estimate => "estimate"
  | sold => "sold"
  | invoiced => "invoiced"
  | paid => "paid"
  end.

(** [a === b] on statuses. *)
Definition JobStatus_eqb (a b : JobStatus) : bool :=
  match a, b with
  | estimate, estimate | sold, sold | invoiced, invoiced | paid, paid => true
  | _, _ => false
  end.

(** Modelled from the spec: the declaration of the "costing data" of a job
    is missing.  The component reads [finalQuote]. *)
Record CostsData : Type := {
  finalQuote : Js.number;
  costs_rest : list (string * Js.value)
}.

(** Modelled from the spec: the declaration of the "board-feet calculation
    data" of a job is missing.  The component reads three numbers of it. *)
Record CalcData : Type := {
  totalBoardFeetWithWaste : Js.number;
  ocSets : Js.number;
  ccSets : Js.number;
  calc_rest : list (string * Js.value)
}.

(** Modelled from the spec: the declaration of [EstimateRecord] ("job record
    with status, costing data, board-feet calculation data, and creation
    timestamp") is missing.  The component reads the first six fields and
    strips the three attachments from a backup. *)
Record EstimateRecord : Type := {
  estimateNumber : string;
  customerId : Z;
  status : JobStatus;
  createdAt : Z;                          (* epoch milliseconds *)
  costsData : CostsData;
  calcData : CalcData;
  estimatePdf : option Js.value;
  materialOrderPdf : option Js.value;
  invoicePdf : option Js.value;
  job_rest : list (string * Js.value)
}.

Definition costs_props (c : CostsData) : list (string * Js.value) :=
  ("finalQuote", Js.Num (finalQuote c)) :: costs_rest c.

Definition calc_props (c : CalcData) : list (string * Js.value) :=
  [("totalBoardFeetWithWaste", Js.Num (totalBoardFeetWithWaste c));
   ("ocSets", Js.Num (ocSets c));
   ("ccSets", Js.Num (ccSets c))]
  ++ calc_rest c.

(** The object a job is, property by property. *)
Definition job_props (j : EstimateRecord) : list (string * Js.value) :=
  [("estimateNumber", Js.Str (estimateNumber j));
   ("customerId", Js.Num (Js.of_Z (customerId j)));
   ("status", Js.Str (JobStatus_text (status j)));
   ("createdAt", Js.Num (Js.of_Z (createdAt j)));
   ("costsData", Js.Obj (costs_props (costsData j)));
   ("calcData", Js.Obj (calc_props (calcData j)))]
  ++ EstimatePDF.optional "estimatePdf" (estimatePdf j)
  ++ EstimatePDF.optional "materialOrderPdf" (materialOrderPdf j)
  ++ EstimatePDF.optional "invoicePdf" (invoicePdf j)
  ++ job_rest j.

End Db.

(* ===================================================================== *)
(** * src/components/CloudSync.tsx *)
(* ===================================================================== *)

Module CloudSync.

(** The values of the [activeAction] state besides [null]. *)
Inductive ActionKind : Type := sheets | docs | backup | email.

(** What the component asked of the outside world, and whether it threw. *)
Inductive Event : Type :=
| GetMcpClient (failure : option Js.Error)
| CallTool (call : Sdk.ToolCall) (failure : option Js.Error).

Definition threw (ev : Event) : bool :=
  match ev with
  | GetMcpClient f | CallTool _ f => bool_decide (is_Some f)
  end.

Definition is_CallTool (ev : Event) : bool :=
  match ev with
  | CallTool _ _ => true
  | GetMcpClient _ => false
  end.

(** The component's three state variables, the timeouts it has pending (each
    one resets [status] to the empty string after the given delay), what it
    wrote with [console.error], the requests it made (oldest first), and the
    world outside the component. *)
Record World (Ext : Type) : Type := {
  isOpen : bool;
  status : string;
  activeAction : option ActionKind;
  timers : list Z;
  console : list (string * Js.Error);
  trace : list Event;
  ext : Ext
}.

Arguments isOpen {Ext} w.
Arguments status {Ext} w.
Arguments activeAction {Ext} w.
Arguments timers {Ext} w.
Arguments console {Ext} w.
Arguments trace {Ext} w.
Arguments ext {Ext} w.

(** How a run of statements ends. *)
Inductive completion (A : Type) : Type :=
| Normal (a : A)
| Return
| Throw (e : Js.Error).

Arguments Normal {A} a.
Arguments Return {A}.
Arguments Throw {A} e.

Definition M (Ext A : Type) : Type := World Ext -> completion A * World Ext.

Definition ret {Ext A : Type} (a : A) : M Ext A := fun w => (Normal a, w).

Definition bind {Ext A B : Type} (m : M Ext A) (k : A -> M Ext B) : M Ext B :=
  fun w =>
    match m w with
    | (Normal a, w') => k a w'
    | (Return, w') => (Return, w')
    | (Throw e, w') => (Throw e, w')
    end.

Declare Scope js_scope.
Delimit Scope js_scope with js.
Bind Scope js_scope with M.

Notation "x <- m ;; k" := (bind m (fun x => k))
  (at level 100, m at next level, right associativity) : js_scope.
Notation "m ;; k" := (bind m (fun _ => k))
  (at level 100, right associativity) : js_scope.

(** [return;] *)
Definition return_ {Ext A : Type} : M Ext A := fun w => (Return, w).

(** [try { body } catch (error) { handler } finally { fin }] *)
Definition try_catch_finally {Ext : Type}
  (body : M Ext unit) (handler : Js.Error -> M Ext unit) (fin : M Ext unit)
  : M Ext unit :=
  fun w =>
    let '(c, w1) := body w in
    let '(c', w2) :=
      match c with
      | Throw e => handler e w1
      | _ => (c, w1)
      end in
    let '(cf, w3) := fin w2 in
    match cf with
    | Normal _ => (c', w3)
    | _ => (cf, w3)
    end.

(** The body of a function: [return] ends the call normally. *)
Definition function {Ext : Type} (body : M Ext unit) : M Ext unit :=
  fun w =>
    match body w with
    | (Return, w') => (Normal tt, w')
    | r => r
    end.

(** The world after a handler ran. *)
Definition run {Ext : Type} (m : M Ext unit) (w : World Ext) : World Ext := snd (m w).

(** The requests a handler added to the trace. *)
Definition requests {Ext : Type} (m : M Ext unit) (w : World Ext) : list Event :=
  drop (length (trace w)) (trace (run m w)).

Definition setIsOpen {Ext : Type} (b : bool) : M Ext unit :=
  fun w =>
    (Normal tt,
     {| isOpen := b; status := status w; activeAction := activeAction w;
        timers := timers w; console := console w; trace := trace w; ext := ext w |}).

Definition setStatus {Ext : Type} (s : string) : M Ext unit :=
  fun w =>
    (Normal tt,
     {| isOpen := isOpen w; status := s; activeAction := activeAction w;
        timers := timers w; console := console w; trace := trace w; ext := ext w |}).

Definition setActiveAction {Ext : Type} (a : option ActionKind) : M Ext unit :=
  fun w =>
    (Normal tt,
     {| isOpen := isOpen w; status := status w; activeAction := a;
        timers := timers w; console := console w; trace := trace w; ext := ext w |}).

(** [setTimeout(() => setStatus(''), delay)] *)
Definition setTimeout_clear_status {Ext : Type} (delay : Z) : M Ext unit :=
  fun w =>
    (Normal tt,
     {| isOpen := isOpen w; status := status w; activeAction := activeAction w;
        timers := timers w ++ [delay]; console := console w; trace := trace w;
        ext := ext w |}).

(** [console.error(label, error)] *)
Definition console_error {Ext : Type} (label : string) (error : Js.Error) : M Ext unit :=
  fun w =>
    (Normal tt,
     {| isOpen := isOpen w; status := status w; activeAction := activeAction w;
        timers := timers w; console := console w ++ [(label, error)];
        trace := trace w; ext := ext w |}).

(** An awaited call into the outside world: it is recorded in the trace and
    either yields its value or throws. *)
Definition await {Ext A : Type}
  (call : Ext -> Js.result A * Ext) (record : option Js.Error -> Event) : M Ext A :=
  fun w =>
    let '(r, x) := call (ext w) in
    let failure := match r with Js.Resolved _ => None | Js.Rejected e => Some e end in
    let w' :=
      {| isOpen := isOpen w; status := status w; activeAction := activeAction w;
         timers := timers w; console := console w;
         trace := trace w ++ [record failure]; ext := x |} in
    match r with
    | Js.Resolved a => (Normal a, w')
    | Js.Rejected e => (Throw e, w')
    end.

Definition showStatus {Ext : Type} (message : string) (duration : Z) : M Ext unit :=
  (setStatus message ;;
   if (0 <? duration)%Z then setTimeout_clear_status duration else ret tt)%js.

(** The default value of [showStatus]'s second parameter. *)
Definition default_duration : Z := 4000.

Definition opt_str_truthy (o : option string) : bool :=
  match o with
  | Some s => Js.str_truthy s
  | None => false
  end.

(** [o || d] for a string that may be undefined. *)
Definition opt_str_or_else (o : option string) (d : string) : string :=
  if opt_str_truthy o then default d o else d.

(** The four operations of the menu. *)
Inductive Operation : Type := BackupToDrive | ExportToSheets | CreateDocReport | EmailReport.

Section Component.

Context {Ext Client : Type}.

(** [client.callTool(request)], the clock read by [new Date()], and the
    platform's formatting. *)
Variable callTool : Client -> Sdk.ToolCall -> Ext -> Js.result unit * Ext.
Variable Date_now : Ext -> Z.
Variable rt : Js.Runtime.

(** The component's props. *)
Variable customers : list EstimatePDF.CustomerInfo.
Variable jobs : list Db.EstimateRecord.
Variable companyInfo : option EstimatePDF.CompanyInfo.
Variable getMcpClient : Ext -> Js.result Client * Ext.

Definition await_getMcpClient : M Ext Client := await getMcpClient GetMcpClient.

Definition await_callTool (client : Client) (request : Sdk.ToolCall) : M Ext unit :=
  await (callTool client request) (CallTool request).

(** [new Date()] *)
Definition new_Date : M Ext Z := fun w => (Normal (Date_now (ext w)), w).

(** [new Date().toISOString().split('T')[0]] *)
Definition iso_date (now : Z) : string := Js.split_head "T" (Js.Date_toISOString rt now).

(** [x.toFixed(2)] as characters. *)
Definition toFixed2_text (x : Js.number) : string :=
  Js.fixed_text (Js.Number_toString rt) (Js.toFixed x 2).

(** [customers.find(c => c.id === job.customerId)] *)
Definition find_customer (job : Db.EstimateRecord) : option EstimatePDF.CustomerInfo :=
  List.find (fun c => (EstimatePDF.id c =? Db.customerId job)%Z) customers.

Definition jobsForBackup : list (list (string * Js.value)) :=
  map (fun job => Js.omit ["estimatePdf"; "materialOrderPdf"; "invoicePdf"] (Db.job_props job))
      jobs.

Definition handleBackupToDrive : M Ext unit :=
  function
    (setActiveAction (Some backup) ;;
     showStatus "Connecting to server..." 0 ;;
     try_catch_finally
       (client <- await_getMcpClient ;;
        now <- new_Date ;;
        let timestamp := iso_date now in
        showStatus "Backing up customers..." 0 ;;
        let customerJson :=
          Js.JSON_stringify (Js.Arr (map (fun c => Js.Obj (EstimatePDF.customer_props c)) customers))
                            (Some 2%nat) in
        await_callTool client
          {| Sdk.name := "google_drive_create_file_from_text";
             Sdk.arguments :=
               [("instructions",
                 Js.Lit "Create a new file in Google Drive with the provided title and content.");
                ("title", Js.Lit ("customers-backup-" +:+ timestamp +:+ ".json"));
                ("content", customerJson)] |} ;;
        showStatus "Backing up jobs..." 0 ;;
        let jobsJson := Js.JSON_stringify (Js.Arr (map Js.Obj jobsForBackup)) (Some 2%nat) in
        await_callTool client
          {| Sdk.name := "google_drive_create_file_from_text";
             Sdk.arguments :=
               [("instructions",
                 Js.Lit "Create a new file in Google Drive with the provided title and content.");
                ("title", Js.Lit ("jobs-backup-" +:+ timestamp +:+ ".json"));
                ("content", jobsJson)] |} ;;
        showStatus "✅ Backup complete!" default_duration ;;
        setIsOpen false)
       (fun error =>
          console_error "Backup failed:" error ;;
          showStatus "❌ Backup failed. Check console." default_duration)
       (setActiveAction None))%js.

Definition dataForSheet : list (list (string * Js.value)) :=
  map (fun job =>
         let customer := find_customer job in
         [("Estimate Number", Js.Str (Db.estimateNumber job));
          ("Customer Name", Js.Str (opt_str_or_else (EstimatePDF.name <$> customer) "N/A"));
          ("Customer Address",
           Js.Str (opt_str_or_else (customer ≫= EstimatePDF.address) "N/A"));
          ("Status", Js.Str (Db.JobStatus_text (Db.status job)));
          ("Creation Date", Js.Str (Js.Date_toLocaleDateString rt (Db.createdAt job)));
          ("Quote Amount", Js.Num (Db.finalQuote (Db.costsData job)));
          ("Total Board Feet", Js.Num (Db.totalBoardFeetWithWaste (Db.calcData job)));
          ("Open Cell Sets", Js.Num (Js.Number (Js.toFixed (Db.ocSets (Db.calcData job)) 2)));
          ("Closed Cell Sets", Js.Num (Js.Number (Js.toFixed (Db.ccSets (Db.calcData job)) 2)))])
      jobs.

Definition handleExportToSheets : M Ext unit :=
  function
    (setActiveAction (Some sheets) ;;
     showStatus "Connecting to server..." 0 ;;
     try_catch_finally
       (client <- await_getMcpClient ;;
        showStatus "Preparing data for Sheets..." 0 ;;
        if (length dataForSheet =? 0)%nat then
          showStatus "No jobs to export." default_duration ;;
          setActiveAction None ;;
          return_
        else
          let jsonData := Js.JSON_stringify (Js.Arr (map Js.Obj dataForSheet)) None in
          now <- new_Date ;;
          let timestamp := iso_date now in
          showStatus "Creating Google Sheet..." 0 ;;
          await_callTool client
            {| Sdk.name := "google_sheets_create_spreadsheet_from_json";
               Sdk.arguments :=
                 [("instructions",
                   Js.Lit "Create a new Google Sheet from the provided JSON data and give it the specified title.");
                  ("title", Js.Lit ("Jobs-Export-" +:+ timestamp));
                  ("json_data", jsonData)] |} ;;
          showStatus "✅ Export to Sheets complete!" default_duration ;;
          setIsOpen false)
       (fun error =>
          console_error "Export to Sheets failed:" error ;;
          showStatus "❌ Export failed. Check console." default_duration)
       (setActiveAction None))%js.

(** One line of the "Recent Jobs" list. *)
Definition recent_job_line (job : Db.EstimateRecord) : string :=
  let customer := find_customer job in
  "- " +:+ Db.estimateNumber job
  +:+ " for " +:+ opt_str_or_else (EstimatePDF.name <$> customer) "N/A"
  +:+ " - Status: " +:+ Db.JobStatus_text (Db.status job)
  +:+ " - $" +:+ toFixed2_text (Db.finalQuote (Db.costsData job)).

Definition generateReportContent : M Ext string :=
  (let totalJobs := length jobs in
   let totalRevenue :=
     fold_left (fun sum j => Js.add sum (Js.or_else (Db.finalQuote (Db.costsData j)) Js.zero))
               (List.filter (fun j => Db.JobStatus_eqb (Db.status j) Db.paid) jobs)
               Js.zero in
   let outstandingRevenue :=
     fold_left (fun sum j => Js.add sum (Js.or_else (Db.finalQuote (Db.costsData j)) Js.zero))
               (List.filter (fun j => Db.JobStatus_eqb (Db.status j) Db.invoiced) jobs)
               Js.zero in
   let totalCustomers := length customers in
   now <- new_Date ;;
   let timestamp := Js.Date_toLocaleString rt now in
   ret (Js.newline
        +:+ "# Business Summary Report" +:+ Js.newline
        +:+ Js.newline
        +:+ "Generated on: " +:+ timestamp +:+ Js.newline
        +:+ Js.newline
        +:+ "## Key Metrics" +:+ Js.newline
        +:+ "- **Total Customers:** " +:+ pretty totalCustomers +:+ Js.newline
        +:+ "- **Total Jobs Logged:** " +:+ pretty totalJobs +:+ Js.newline
        +:+ "- **Total Revenue (Paid):** $" +:+ toFixed2_text totalRevenue +:+ Js.newline
        +:+ "- **Outstanding A/R (Invoiced):** $" +:+ toFixed2_text outstandingRevenue
        +:+ Js.newline
        +:+ Js.newline
        +:+ "## Recent Jobs" +:+ Js.newline
        +:+ Js.join Js.newline (map recent_job_line (take 5 jobs)) +:+ Js.newline
        +:+ "        "))%js.

Definition handleCreateDocReport : M Ext unit :=
  function
    (setActiveAction (Some docs) ;;
     showStatus "Connecting to server..." 0 ;;
     try_catch_finally
       (client <- await_getMcpClient ;;
        showStatus "Generating report..." 0 ;;
        reportContent <- generateReportContent ;;
        now <- new_Date ;;
        let docTitle := "Business-Summary-Report-" +:+ iso_date now in
        showStatus "Creating Google Doc..." 0 ;;
        await_callTool client
          {| Sdk.name := "google_docs_create_document_from_text";
             Sdk.arguments :=
               [("instructions",
                 Js.Lit "Create a new Google Doc with the provided title and content.");
                ("title", Js.Lit docTitle);
                ("content", Js.Lit reportContent)] |} ;;
        showStatus "✅ Report created!" default_duration ;;
        setIsOpen false)
       (fun error =>
          console_error "Doc report failed:" error ;;
          showStatus "❌ Report creation failed." default_duration)
       (setActiveAction None))%js.

Definition handleEmailReport : M Ext unit :=
  function
    (let email := companyInfo ≫= EstimatePDF.email in
     if negb (opt_str_truthy email) then
       showStatus "Company email not set in settings." default_duration ;;
       return_
     else
       setActiveAction (Some CloudSync.email) ;;
       showStatus "Connecting to server..." 0 ;;
       try_catch_finally
         (client <- await_getMcpClient ;;
          showStatus "Generating email content..." 0 ;;
          reportContent <- generateReportContent ;;
          now <- new_Date ;;
          let emailSubject :=
            "Business Summary Report - " +:+ Js.Date_toLocaleDateString rt now in
          showStatus "Sending email..." 0 ;;
          await_callTool client
            {| Sdk.name := "gmail_send_email";
               Sdk.arguments :=
                 [("instructions",
                   Js.Lit "Send an email to the specified recipient with the given subject and body.");
                  ("to", Js.Lit (default EmptyString email));
                  ("subject", Js.Lit emailSubject);
                  ("body", Js.Lit reportContent)] |} ;;
          showStatus "✅ Email sent!" default_duration ;;
          setIsOpen false)
         (fun error =>
            console_error "Email report failed:" error ;;
            showStatus "❌ Failed to send email." default_duration)
         (setActiveAction None))%js.

(** The handler of each operation of the menu. *)
Definition handler (op : Operation) : M Ext unit :=
  match op with
  | BackupToDrive => handleBackupToDrive
  | ExportToSheets => handleExportToSheets
  | CreateDocReport => handleCreateDocReport
  | EmailReport => handleEmailReport
  end.

End Component.


(** The two validation short-circuits: the operation, the condition under
    which it stops early, and the message it then shows. *)
Definition short_circuits (op : Operation) (jobs : list Db.EstimateRecord)
  (companyInfo : option EstimatePDF.CompanyInfo) : bool :=
  match op with
  | ExportToSheets => bool_decide (jobs = [])
  | EmailReport => negb (opt_str_truthy (companyInfo ≫= EstimatePDF.email))
  | BackupToDrive | CreateDocReport => false
  end.


(** The label each operation passes to [console.error] from its [catch]
    block. *)
Definition error_label (op : Operation) : string :=
  match op with
  | BackupToDrive => "Backup failed:"
  | ExportToSheets => "Export to Sheets failed:"
  | CreateDocReport => "Doc report failed:"
  | EmailReport => "Email report failed:"
  end.

(** The message each operation shows at the end of its [try] block. *)
Definition success_message (op : Operation) : string :=
  match op with
  | BackupToDrive => "✅ Backup complete!"
  | ExportToSheets => "✅ Export to Sheets complete!"
  | CreateDocReport => "✅ Report created!"
  | EmailReport => "✅ Email sent!"
  end.

(** The number of [callTool] statements in the [try] block of each
    operation. *)
Definition tool_calls_of (op : Operation) : nat :=
  match op with
  | BackupToDrive => 2
  | ExportToSheets | CreateDocReport | EmailReport => 1
  end.

(** The error a request threw, if it did. *)
Definition failure_of (ev : Event) : option Js.Error :=
  match ev with
  | GetMcpClient f | CallTool _ f => f
  end.

(** [activeAction === actionType] *)
Definition ActionKind_eqb (a b : ActionKind) : bool :=
  match a, b with
  | sheets, sheets | docs, docs | backup, backup | email, email => true
  | _, _ => false
  end.

(** [const isLoading = activeAction !== null] *)
Definition isLoading {Ext : Type} (w : World Ext) : bool :=
  match activeAction w with
  | Some _ => true
  | None => false
  end.

(** The text in the label of an [ActionButton]:
    [isLoading && activeAction === actionType ? status : label]. *)
Definition ActionButton_text {Ext : Type} (actionType : ActionKind) (label : string)
  (w : World Ext) : string :=
  if isLoading w
     && match activeAction w with
        | Some a => ActionKind_eqb a actionType
        | None => false
        end
  then status w else label.

(** The texts the component renders, top to bottom: the status line above
    the menu, under [status && !isOpen], and the labels of the four buttons,
    under [isOpen]. *)
Definition rendered_texts {Ext : Type} (w : World Ext) : list string :=
  (if Js.str_truthy (status w) && negb (isOpen w) then [status w] else [])
  ++ (if isOpen w then
        [ActionButton_text sheets "Export to Sheets" w;
         ActionButton_text docs "Create Doc Report" w;
         ActionButton_text email "Email Summary" w;
         ActionButton_text backup "Backup to Drive" w]
      else []).



End CloudSync.

(* ===================================================================== *)
(** * The automation editor *)
(* ===================================================================== *)

(** The types [./types.ts] exports.  The file is not among the sources. *)
Module Types.

(** Modelled from the spec: the declaration of [TriggerType] is missing; it
    is "one of a closed set (new_customer, job_status_updated)". *)
Inductive TriggerType : Type := new_customer | job_status_updated.

(** Modelled from the spec: the declaration of [ActionType] is missing; it is
    "one of a closed set (create_task, send_email, update_inventory,
    add_to_schedule, webhook)". *)
Inductive ActionType : Type :=
  create_task | send_email | update_inventory | add_to_schedule | webhook.

(** Modelled from the spec: the declaration of [Action] is missing; it has a
    numeric [id], an [action_type] and an [action_config] mapping.  [ref] is
    the identity of the object that holds the action, so that keeping an
    object and building an equal one can be told apart. *)
Record Action : Type := {
  ref : nat;
  id : Z;
  action_type : ActionType;
  action_config : gmap string string
}.

(** Modelled from the spec: the declaration of [Automation] is missing.  Its
    identifier, here [automation_id], is "absent on unsaved drafts". *)
Record Automation : Type := {
  automation_id : option Z;
  name : string;
  trigger_type : TriggerType;
  trigger_config : gmap string string;
  actions : list Action;
  is_enabled : bool
}.

End Types.

Module AutomationEditor.

Import Types.

(** Object allocation: a computation receives the next free reference and
    returns the one that is free after it. *)
Definition Alloc (A : Type) : Type := nat -> A * nat.

Definition pure {A : Type} (a : A) : Alloc A := fun h => (a, h).

Definition new {A : Type} (mk : nat -> A) : Alloc A := fun h => (mk h, S h).

Definition and_then {A B : Type} (m : Alloc A) (k : A -> Alloc B) : Alloc B :=
  fun h => let '(a, h') := m h in k a h'.

(** [xs.map(f)] for an [f] that may allocate. *)
Fixpoint map_alloc {A B : Type} (f : A -> Alloc B) (xs : list A) : Alloc (list B) :=
  match xs with
  | [] => pure []
  | x :: rest =>
      and_then (f x) (fun y => and_then (map_alloc f rest) (fun ys => pure (y :: ys)))
  end.

(** [{...prev, actions: acts}] *)
Definition with_actions (prev : Automation) (acts : list Action) : Automation :=
  {| automation_id := automation_id prev;
     name := name prev;
     trigger_type := trigger_type prev;
     trigger_config := trigger_config prev;
     actions := acts;
     is_enabled := is_enabled prev |}.

Definition JOB_STATUSES : list Db.JobStatus := [Db.estimate; Db.sold; Db.invoiced; Db.paid].

(** A key of [Automation] together with a value of that key's type. *)
Inductive Field : Type :=
| field_id (v : option Z)
| field_name (v : string)
| field_trigger_type (v : TriggerType)
| field_trigger_config (v : gmap string string)
| field_actions (v : list Action)
| field_is_enabled (v : bool).

Definition handleFieldChange (fv : Field) (prev : Automation) : Automation :=
  {| automation_id := match fv with field_id v => v | _ => automation_id prev end;
     name := match fv with field_name v => v | _ => name prev end;
     trigger_type := match fv with field_trigger_type v => v | _ => trigger_type prev end;
     trigger_config :=
       match fv with field_trigger_config v => v | _ => trigger_config prev end;
     actions := match fv with field_actions v => v | _ => actions prev end;
     is_enabled := match fv with field_is_enabled v => v | _ => is_enabled prev end |}.

(** [configType] can only be ['trigger_config']. *)
Definition handleConfigChange (field value : string) (prev : Automation) : Automation :=
  {| automation_id := automation_id prev;
     name := name prev;
     trigger_type := trigger_type prev;
     trigger_config := <[field := value]> (trigger_config prev);
     actions := actions prev;
     is_enabled := is_enabled prev |}.

(** [field] can only be ['action_type']. *)
Definition handleActionChange (actionId : Z) (value : ActionType) (prev : Automation)
  : Alloc Automation :=
  and_then
    (map_alloc
       (fun action =>
          if (id action =? actionId)%Z then
            new (fun r => {| ref := r; id := id action; action_type := value;
                             action_config := ∅ |})
          else pure action)
       (actions prev))
    (fun acts => pure (with_actions prev acts)).

Definition handleActionConfigChange (actionId : Z) (configField value : string)
  (prev : Automation) : Alloc Automation :=
  and_then
    (map_alloc
       (fun action =>
          if (id action =? actionId)%Z then
            new (fun r => {| ref := r; id := id action; action_type := action_type action;
                             action_config := <[configField := value]> (action_config action) |})
          else pure action)
       (actions prev))
    (fun acts => pure (with_actions prev acts)).

(** [now] is what [Date.now()] returns when the handler runs. *)
Definition addAction (now : Z) (prev : Automation) : Alloc Automation :=
  and_then
    (new (fun r => {| ref := r; id := now; action_type := create_task; action_config := ∅ |}))
    (fun newAction => pure (with_actions prev (actions prev ++ [newAction]))).

Definition removeAction (actionId : Z) (prev : Automation) : Automation :=
  with_actions prev (List.filter (fun action => negb (id action =? actionId)%Z) (actions prev)).

(** The input fields [renderActionConfig] shows for an action, by the key
    of [action_config] each one edits. *)
Definition renderActionConfig (action : Action) : list string :=
  match action_type action with
  | webhook => ["url"]
  | create_task => ["task_title"; "task_description"]
  | send_email => ["email_subject"; "email_body"]
  | update_inventory => []
  | add_to_schedule => []
  end.

(** The four ways of changing a field, each with its handler. *)
Inductive Change : Type :=
| ChangeField (fv : Field)
| ChangeConfig (field value : string)
| ChangeActionType (actionId : Z) (value : ActionType)
| ChangeActionConfig (actionId : Z) (configField value : string).

Definition apply_change (c : Change) (prev : Automation) : Alloc Automation :=
  match c with
  | ChangeField fv => pure (handleFieldChange fv prev)
  | ChangeConfig field value => pure (handleConfigChange field value prev)
  | ChangeActionType actionId value => handleActionChange actionId value prev
  | ChangeActionConfig actionId configField value =>
      handleActionConfigChange actionId configField value prev
  end.

(** The actions a change is aimed at: those whose identifier it names. *)
Definition targets (c : Change) (action : Action) : bool :=
  match c with
  | ChangeActionType actionId _ | ChangeActionConfig actionId _ _ => (id action =? actionId)%Z
  | ChangeField _ | ChangeConfig _ _ => false
  end.

(** [handleFieldChange('actions', list)] puts a whole new list in place; the
    form never calls it so. *)
Definition replaces_actions (c : Change) : bool :=
  match c with
  | ChangeField (field_actions _) => true
  | _ => false
  end.

(** The component: its [automation] state and the next free reference. *)
Record Editor : Type := {
  automation : Automation;
  heap : nat
}.

(** What can happen to a mounted editor.  Controls that belong to an action
    are addressed by the position at which that action is rendered. *)
Inductive UiEvent : Type :=
| PropsChanged (existingAutomation : option Automation)
| NameInput (value : string)
| TriggerSelect (value : TriggerType)
| StatusSelect (value : string)
| EnabledCheckbox (checked : bool)
| ActionTypeSelect (index : nat) (value : ActionType)
| ActionConfigInput (index : nat) (configField value : string)
| AddActionClick (now : Z)
| RemoveActionClick (index : nat).

Section Component.

(** What [Date.now()] returned when the module was evaluated. *)
Variable loaded_at : Z.

Definition EMPTY_AUTOMATION : Automation :=
  {| automation_id := None;
     name := EmptyString;
     trigger_type := new_customer;
     trigger_config := ∅;
     actions := [{| ref := 0; id := loaded_at; action_type := create_task;
                    action_config := ∅ |}];
     is_enabled := true |}.

(** [existingAutomation || EMPTY_AUTOMATION] *)
Definition initial_automation (existingAutomation : option Automation) : Automation :=
  default EMPTY_AUTOMATION existingAutomation.

(** The editor as first rendered. *)
Definition mount (existingAutomation : option Automation) (h : nat) : Editor :=
  {| automation := initial_automation existingAutomation; heap := h |}.

(** [setAutomation(prev => update(prev))] *)
Definition setAutomation (update : Automation -> Alloc Automation) (ed : Editor) : Editor :=
  let '(next, h) := update (automation ed) (heap ed) in
  {| automation := next; heap := h |}.

(** The remove button of an action is rendered only under this condition. *)
Definition remove_button_rendered (a : Automation) : bool := (1 <? length (actions a))%nat.

(** The status selector is rendered only under this condition. *)
Definition status_select_rendered (a : Automation) : bool :=
  match trigger_type a with
  | job_status_updated => true
  | new_customer => false
  end.

(** The handler each event runs.  An event on a control that is not rendered
    leaves the editor as it is. *)
Definition dispatch (ev : UiEvent) (ed : Editor) : Editor :=
  let a := automation ed in
  match ev with
  | PropsChanged existingAutomation =>
      setAutomation (fun _ => pure (initial_automation existingAutomation)) ed
  | NameInput value =>
      setAutomation (fun prev => pure (handleFieldChange (field_name value) prev)) ed
  | TriggerSelect value =>
      setAutomation (fun prev => pure (handleFieldChange (field_trigger_type value) prev)) ed
  | StatusSelect value =>
      if status_select_rendered a then
        setAutomation (fun prev => pure (handleConfigChange "to_status" value prev)) ed
      else ed
  | EnabledCheckbox checked =>
      setAutomation (fun prev => pure (handleFieldChange (field_is_enabled checked) prev)) ed
  | ActionTypeSelect index value =>
      match actions a !! index with
      | Some action => setAutomation (handleActionChange (id action) value) ed
      | None => ed
      end
  | ActionConfigInput index configField value =>
      match actions a !! index with
      | Some action =>
          if bool_decide (configField ∈ renderActionConfig action) then
            setAutomation (handleActionConfigChange (id action) configField value) ed
          else ed
      | None => ed
      end
  | AddActionClick now => setAutomation (addAction now) ed
  | RemoveActionClick index =>
      match actions a !! index with
      | Some action =>
          if remove_button_rendered a then
            setAutomation (fun prev => pure (removeAction (id action) prev)) ed
          else ed
      | None => ed
      end
  end.

(** The editor after a sequence of events, oldest first. *)
Definition dispatch_all (evs : list UiEvent) (ed : Editor) : Editor :=
  fold_left (fun e ev => dispatch ev e) evs ed.

End Component.

(** The identifiers of the actions of an automation, in order. *)
Definition action_ids (a : Automation) : list Z := map id (actions a).

(** No identifier occurs twice among the actions. *)
Definition distinct_ids (a : Automation) : Prop := NoDup (action_ids a).

(** An automation the invariants of the data model hold for: at least one
    action, and no identifier twice. *)
Definition well_formed (a : Automation) : Prop :=
  actions a ≠ [] ∧ distinct_ids a.

(** An event is [timely] for an editor when it does not bring in a duplicate
    identifier: an added action is stamped with a clock reading that is not
    the identifier of an action already listed, and an automation passed in
    by the parent is [ok]. *)
Definition timely (ok : Automation -> Prop) (ev : UiEvent) (ed : Editor) : Prop :=
  match ev with
  | AddActionClick now => now ∉ action_ids (automation ed)
  | PropsChanged (Some existing) => ok existing
  | _ => True
  end.

(** Every event of the sequence is timely when it happens. *)
Fixpoint all_timely (ok : Automation -> Prop) (loaded_at : Z) (evs : list UiEvent)
  (ed : Editor) : Prop :=
  match evs with
  | [] => True
  | ev :: rest => timely ok ev ed ∧ all_timely ok loaded_at rest (dispatch loaded_at ev ed)
  end.

(** [handleSubmit]: the draft it hands to [onSave]. *)
Definition handleSubmit (ed : Editor) : Automation := automation ed.

(** Every key of the configuration of an action is one of the input fields
    the form shows for the type of that action. *)
Definition config_fits (action : Action) : Prop :=
  ∀ k, is_Some (action_config action !! k) → k ∈ renderActionConfig action.

Definition configs_fit (a : Automation) : Prop := Forall config_fits (actions a).

(** The clock readings of the add clicks of a sequence of events, in order. *)
Definition added_ids (evs : list UiEvent) : list Z :=
  omap (fun ev => match ev with AddActionClick now => Some now | _ => None end) evs.

(** The parent does not pass in another automation. *)
Definition same_props (ev : UiEvent) : bool :=
  match ev with
  | PropsChanged _ => false
  | _ => true
  end.

End AutomationEditor.

(* ===================================================================== *)
(** * The report, as the specification words it *)
(* ===================================================================== *)

Module ReportSpec.

(** What a job counts for in a total: its [finalQuote], or 0 when that is
    zero or not a number. *)
Definition counted_quote (j : Db.EstimateRecord) : Js.number :=
  match Db.finalQuote (Db.costsData j) with
  | S754_zero _ | S754_nan => Js.zero
  | q => q
  end.

(** The running total over the jobs in status [s], in list order. *)
Fixpoint total_from (acc : Js.number) (s : Db.JobStatus) (jobs : list Db.EstimateRecord)
  : Js.number :=
  match jobs with
  | [] => acc
  | j :: rest =>
      match Db.status j, s with
      | Db.estimate, Db.estimate | Db.sold, Db.sold
      | Db.invoiced, Db.invoiced | Db.paid, Db.paid =>
          total_from (Js.add acc (counted_quote j)) s rest
      | _, _ => total_from acc s rest
      end
  end.

(** Sum of the quotes of the jobs in status [s]. *)
Definition quote_total (s : Db.JobStatus) (jobs : list Db.EstimateRecord) : Js.number :=
  total_from Js.zero s jobs.

(** The name shown for the customer of a job: the name of the first customer
    with the job's customer id, or "N/A" when there is none or its name is
    empty. *)
Fixpoint customer_name (customers : list EstimatePDF.CustomerInfo) (j : Db.EstimateRecord)
  : string :=
  match customers with
  | [] => "N/A"
  | c :: rest =>
      if (EstimatePDF.id c =? Db.customerId j)%Z then
        match EstimatePDF.name c with
        | EmptyString => "N/A"
        | n => n
        end
      else customer_name rest j
  end.

(** The one-line summary of a job: estimate number, customer name, status,
    and quote with two decimals. *)
Definition summary_line (rt : Js.Runtime) (customers : list EstimatePDF.CustomerInfo)
  (j : Db.EstimateRecord) : string :=
  "- " +:+ Db.estimateNumber j
  +:+ " for " +:+ customer_name customers j
  +:+ " - Status: " +:+ Db.JobStatus_text (Db.status j)
  +:+ " - $" +:+ CloudSync.toFixed2_text rt (Db.finalQuote (Db.costsData j)).

(** A job is among the [n] most recent of a list when fewer than [n] jobs of
    the list were created after it. *)
Definition among_most_recent (n : nat) (jobs : list Db.EstimateRecord) (j : Db.EstimateRecord)
  : Prop :=
  j ∈ jobs
  ∧ length (List.filter (fun k => (Db.createdAt j <? Db.createdAt k)%Z) jobs) < n.

End ReportSpec.

(* ===================================================================== *)
(** * The menu with the accessor of [Mcp] as its [getMcpClient] prop *)
(* ===================================================================== *)

Module Wiring.

Section Wired.

(** The network; [client.connect]; what a tool call does to the network and
    how it settles; the clock. *)
Context {Net : Type}.
Variable connect : Mcp.Client -> string -> Net -> option Js.Error * Net.
Variable tool : Mcp.Client -> Sdk.ToolCall -> Net -> Js.result unit * Net.
Variable clock : Net -> Z.

(** [client.callTool(request)]: it has no access to the module variable
    [mcpClient]. *)
Definition callTool (c : Mcp.Client) (request : Sdk.ToolCall) (st : Mcp.State Net)
  : Js.result unit * Mcp.State Net :=
  let '(r, net') := tool c request (Mcp.net st) in
  (r, {| Mcp.mcpClient := Mcp.mcpClient st;
         Mcp.next_ref := Mcp.next_ref st;
         Mcp.console := Mcp.console st;
         Mcp.connects := Mcp.connects st;
         Mcp.net := net' |}).

Variable rt : Js.Runtime.
Variable customers : list EstimatePDF.CustomerInfo.
Variable jobs : list Db.EstimateRecord.
Variable companyInfo : option EstimatePDF.CompanyInfo.

Definition handler (op : CloudSync.Operation) : CloudSync.M (Mcp.State Net) unit :=
  CloudSync.handler callTool (fun st => clock (Mcp.net st)) rt customers jobs companyInfo
                    (Mcp.getMcpClient connect) op.

(** The operations of a list run one after the other. *)
Definition run_all (ops : list CloudSync.Operation) (w : CloudSync.World (Mcp.State Net))
  : CloudSync.World (Mcp.State Net) :=
  fold_left (fun w' op => CloudSync.run (handler op) w') ops w.

End Wired.

End Wiring.

(* ===================================================================== *)
(** * Sample inputs *)
(* ===================================================================== *)

Module Samples.

Import Js.

(** The number a program text such as [1.005] denotes. *)
Definition lit_1_005 : number := of_ratio false 1005 1000.
Definition lit_1_01 : number := of_ratio false 101 100.
Definition lit_0_5 : number := of_ratio false 1 2.

(** A platform with a frozen clock text, for closed examples. *)
Definition runtime : Runtime :=
  {| Date_toISOString := fun _ => "2024-03-09T08:15:00.000Z";
     Date_toLocaleString := fun _ => "3/9/2024, 8:15:00 AM";
     Date_toLocaleDateString := fun _ => "3/9/2024";
     Number_toString := fun _ => "1e+21" |}.

Definition acme : EstimatePDF.CustomerInfo :=
  {| EstimatePDF.id := 1;
     EstimatePDF.name := "Acme";
     EstimatePDF.address := None;
     EstimatePDF.customer_rest := [] |}.

(** A job of customer 1; only the creation time, the number, the status and
    the quote vary. *)
Definition job (number : string) (created : Z) (s : Db.JobStatus) (quote : Z)
  : Db.EstimateRecord :=
  {| Db.estimateNumber := number;
     Db.customerId := 1;
     Db.status := s;
     Db.createdAt := created;
     Db.costsData := {| Db.finalQuote := of_Z quote; Db.costs_rest := [] |};
     Db.calcData :=
       {| Db.totalBoardFeetWithWaste := of_Z 100;
          Db.ocSets := lit_1_005;
          Db.ccSets := lit_0_5;
          Db.calc_rest := [] |};
     Db.estimatePdf := None;
     Db.materialOrderPdf := None;
     Db.invoicePdf := None;
     Db.job_rest := [] |}.

(** The same job with its three PDF attachments and a note. *)
Definition with_attachments (j : Db.EstimateRecord) : Db.EstimateRecord :=
  {| Db.estimateNumber := Db.estimateNumber j;
     Db.customerId := Db.customerId j;
     Db.status := Db.status j;
     Db.createdAt := Db.createdAt j;
     Db.costsData := Db.costsData j;
     Db.calcData := Db.calcData j;
     Db.estimatePdf := Some (Opaque "Blob");
     Db.materialOrderPdf := Some (Opaque "Blob");
     Db.invoicePdf := Some (Opaque "Blob");
     Db.job_rest := [("notes", Str "see estimatePdf")] |}.

Definition job_E1 (created : Z) : Db.EstimateRecord := job "E-1" created Db.paid 500.

(** A paid job whose quote is not a number. *)
Definition job_without_quote : Db.EstimateRecord :=
  {| Db.estimateNumber := "E-0";
     Db.customerId := 1;
     Db.status := Db.paid;
     Db.createdAt := 500;
     Db.costsData := {| Db.finalQuote := NaN; Db.costs_rest := [] |};
     Db.calcData :=
       {| Db.totalBoardFeetWithWaste := of_Z 100;
          Db.ocSets := lit_1_005;
          Db.ccSets := lit_0_5;
          Db.calc_rest := [] |};
     Db.estimatePdf := None;
     Db.materialOrderPdf := None;
     Db.invoicePdf := None;
     Db.job_rest := [] |}.

(** Six jobs listed oldest first: the sixth is the most recent one. *)
Definition six_jobs : list Db.EstimateRecord :=
  [job "E-1" 1000 Db.paid 500; job "E-2" 2000 Db.paid 500; job "E-3" 3000 Db.paid 500;
   job "E-4" 4000 Db.paid 500; job "E-5" 5000 Db.paid 500; job "E-6" 6000 Db.invoiced 750].

(** An outside world for closed examples: the accessor of [Mcp] over a
    network that answers successive connects from a script, a client whose
    [callTool] answers from a script ([None]: the call returns; a script
    that ran out keeps answering so), and a clock. *)
Record Outside : Type := {
  accessor : Mcp.State (list (option Error));
  tools : list (option Error);
  clock : Z
}.

Definition connect (c : Mcp.Client) (url : string) (script : list (option Error))
  : option Error * list (option Error) :=
  match script with
  | [] => (None, [])
  | answer :: rest => (answer, rest)
  end.

Definition getMcpClient (x : Outside) : result Mcp.Client * Outside :=
  let '(r, st) := Mcp.getMcpClient connect (accessor x) in
  (r, {| accessor := st; tools := tools x; clock := clock x |}).

Definition callTool (c : Mcp.Client) (request : Sdk.ToolCall) (x : Outside)
  : result unit * Outside :=
  match tools x with
  | [] => (Resolved tt, x)
  | answer :: rest =>
      (match answer with None => Resolved tt | Some e => Rejected e end,
       {| accessor := accessor x; tools := rest; clock := clock x |})
  end.

(** The accessor before its first call. *)
Definition unconnected (script : list (option Error)) : Mcp.State (list (option Error)) :=
  {| Mcp.mcpClient := None; Mcp.next_ref := 0; Mcp.console := []; Mcp.connects := [];
     Mcp.net := script |}.

Definition outside (connect_script tool_script : list (option Error)) : Outside :=
  {| accessor := unconnected connect_script; tools := tool_script; clock := 1709972100000 |}.

(** The component at rest with its menu open. *)
Definition idle (x : Outside) : CloudSync.World Outside :=
  {| CloudSync.isOpen := true;
     CloudSync.status := EmptyString;
     CloudSync.activeAction := None;
     CloudSync.timers := [];
     CloudSync.console := [];
     CloudSync.trace := [];
     CloudSync.ext := x |}.

Definition company (email : option string) : option EstimatePDF.CompanyInfo :=
  Some {| EstimatePDF.email := email; EstimatePDF.company_rest := [] |}.

(** The sample component: its handlers over the sample outside world. *)
Definition handler (customers : list EstimatePDF.CustomerInfo) (jobs : list Db.EstimateRecord)
  (companyInfo : option EstimatePDF.CompanyInfo) (op : CloudSync.Operation)
  : CloudSync.M Outside unit :=
  CloudSync.handler callTool clock runtime customers jobs companyInfo getMcpClient op.

(** A freshly mounted editor for a new automation; the module was evaluated
    at time 1000. *)
Definition new_editor : AutomationEditor.Editor := AutomationEditor.mount 1000 None 1.

(** Two actions are added within the same millisecond. *)
Definition double_add : list AutomationEditor.UiEvent :=
  [AutomationEditor.AddActionClick 2000; AutomationEditor.AddActionClick 2000].

(** ... then the first action is removed, then the first of the two left. *)
Definition double_add_then_remove : list AutomationEditor.UiEvent :=
  double_add ++ [AutomationEditor.RemoveActionClick 0; AutomationEditor.RemoveActionClick 0].

(** An ordinary session: add an action, name the automation, make the new
    action an email, fill in its subject, remove the first action. *)
Definition session : list AutomationEditor.UiEvent :=
  [AutomationEditor.AddActionClick 2000;
   AutomationEditor.NameInput "Follow up";
   AutomationEditor.ActionTypeSelect 1 Types.send_email;
   AutomationEditor.ActionConfigInput 1 "email_subject" "Thank you";
   AutomationEditor.RemoveActionClick 0].

(** A network that accepts every connect and every tool call; all there is
    to it is the clock, which a tool call advances. *)
Definition calm_connect (c : Mcp.Client) (url : string) (net : Z) : option Error * Z :=
  (None, net).

Definition calm_tool (c : Mcp.Client) (request : Sdk.ToolCall) (net : Z) : result unit * Z :=
  (Resolved tt, (net + 1500)%Z).

(** The component at rest, menu open, over a given state of the accessor. *)
Definition at_rest (st : Mcp.State Z) : CloudSync.World (Mcp.State Z) :=
  {| CloudSync.isOpen := true;
     CloudSync.status := EmptyString;
     CloudSync.activeAction := None;
     CloudSync.timers := [];
     CloudSync.console := [];
     CloudSync.trace := [];
     CloudSync.ext := st |}.

Definition not_connected : Mcp.State Z :=
  {| Mcp.mcpClient := None; Mcp.next_ref := 0; Mcp.console := []; Mcp.connects := [];
     Mcp.net := 1709972100000%Z |}.

Definition connected : Mcp.State Z :=
  {| Mcp.mcpClient := Some (Mcp.new_Client 0);
     Mcp.next_ref := 1;
     Mcp.console := ["Connecting to MCP server..."; "MCP client connected successfully."];
     Mcp.connects := [Mcp.PROXY_URL +:+ Mcp.serverUrl];
     Mcp.net := 1709972100000%Z |}.

(** A saved automation with one webhook action. *)
Definition saved_automation : Types.Automation :=
  {| Types.automation_id := Some 7%Z;
     Types.name := "Notify";
     Types.trigger_type := Types.job_status_updated;
     Types.trigger_config := {["to_status" := "paid"]};
     Types.actions :=
       [{| Types.ref := 0; Types.id := 500%Z; Types.action_type := Types.webhook;
           Types.action_config := {["url" := "https://example.com/hook"]} |}];
     Types.is_enabled := true |}.

End Samples.

(* ===================================================================== *)
(** * Properties of the number model *)
(* ===================================================================== *)

Section NumberFacts.

Import Js.

(** The number written [1.005] lies strictly below 1005/1000. *)
Example lit_1_005_value :
  Samples.lit_1_005 = S754_finite false 4526117625507348 (-52)
  ∧ (4526117625507348 * 1000 < 1005 * 2 ^ 52)%Z.
Proof. split; [vm_compute; reflexivity | lia]. Qed.

Example toFixed_1_005 : toFixed Samples.lit_1_005 2 = FixedDigits false 100 2.
Proof. vm_compute. reflexivity. Qed.

Example Number_of_toFixed_samples :
  Number (toFixed Samples.lit_1_005 2) = of_Z 1
  ∧ Number (toFixed Samples.lit_0_5 2) = Samples.lit_0_5
  ∧ Number (toFixed (of_ratio false 5 2) 0) = of_Z 3
  ∧ Number (toFixed (of_ratio true 1 1000) 2) = S754_zero true.
Proof. vm_compute. repeat split. Qed.

Example toFixed_text_samples :
  fixed_text (fun _ => "1e+21") (toFixed Samples.lit_1_005 2) = "1.00"
  ∧ fixed_text (fun _ => "1e+21") (toFixed (of_Z 500) 2) = "500.00"
  ∧ fixed_text (fun _ => "1e+21") (toFixed (of_ratio true 1 1000) 2) = "-0.00"
  ∧ fixed_text (fun _ => "1e+21") (toFixed (of_ratio false 5 1000) 2) = "0.01"
  ∧ fixed_text (fun _ => "1e+21") (toFixed (of_ratio false 5 2) 0) = "3".
Proof. vm_compute. repeat split. Qed.

Lemma append_nil_l (s : string) : EmptyString +:+ s = s.
Proof. reflexivity. Qed.

Lemma append_cons (c : ascii) (a s : string) : String c a +:+ s = String c (a +:+ s).
Proof. reflexivity. Qed.

Lemma append_assoc (a b c : string) : (a +:+ b) +:+ c = a +:+ (b +:+ c).
Proof.
  induction a as [|x a IH]; [reflexivity|].
  rewrite !append_cons, IH. reflexivity.
Qed.

Lemma prefix_append (x b : string) : String.prefix x (x +:+ b) = true.
Proof.
  induction x as [|c x IH].
  - rewrite append_nil_l. destruct b; reflexivity.
  - rewrite append_cons. cbn [String.prefix].
    destruct (ascii_dec c c) as [_|n]; [exact IH | contradiction].
Qed.

Lemma includes_unfold (needle hay : string) :
  includes needle hay =
  if String.prefix needle hay then true
  else match hay with EmptyString => false | String _ rest => includes needle rest end.
Proof. destruct hay; reflexivity. Qed.

End NumberFacts.

(* ===================================================================== *)
(** * Export to Sheets: the projected records *)
(* ===================================================================== *)

Section SheetRecords.

Import Js.

(** C7 (as the code has it).  For one customer [{id: 1, name: "Acme"}] and
    one job [{customerId: 1, status: "paid", costsData: {finalQuote: 500},
    calcData: {totalBoardFeetWithWaste: 100, ocSets: 1.005, ccSets: 0.5},
    estimateNumber: "E-1"}], whatever its creation time and the platform's
    locale, the export builds exactly one record; its "Customer Name" is
    "Acme", its "Quote Amount" is 500, and its "Open Cell Sets" is 1: the
    number written 1.005 lies below 1005/1000, so [toFixed(2)] yields "1.00". *)
Theorem export_example_record (rt : Runtime) (created : Z) :
  ∃ row,
    CloudSync.dataForSheet rt [Samples.acme] [Samples.job_E1 created] = [row]
    ∧ get "Customer Name" row = Some (Str "Acme")
    ∧ get "Open Cell Sets" row = Some (Num (of_Z 1))
    ∧ get "Quote Amount" row = Some (Num (of_Z 500)).
Proof.
  eexists. split; [reflexivity|].
  repeat split; vm_compute; reflexivity.
Qed.

(** C7 (as the specification words it) fails: the record's "Open Cell Sets"
    is not the number 1.01. *)
Lemma export_example_open_cell_sets_not_1_01 :
  ¬ ∃ row,
      CloudSync.dataForSheet Samples.runtime [Samples.acme] [Samples.job_E1 0] = [row]
      ∧ get "Customer Name" row = Some (Str "Acme")
      ∧ get "Open Cell Sets" row = Some (Num Samples.lit_1_01)
      ∧ get "Quote Amount" row = Some (Num (of_Z 500)).
Proof.
  intros (row & Hrow & _ & Hoc & _).
  vm_compute in Hrow. injection Hrow as <-.
  vm_compute in Hoc. discriminate Hoc.
Qed.

End SheetRecords.

(* ===================================================================== *)
(** * The MCP client accessor *)
(* ===================================================================== *)

Section AccessorFacts.

Context {Net : Type}.
Variable connect : Mcp.Client -> string -> Net -> option Js.Error * Net.

(** A call that finds the slot filled returns its content and changes
    nothing: no connect, no allocation, no console line. *)
Lemma getMcpClient_cached (st : Mcp.State Net) (c : Mcp.Client) :
  Mcp.mcpClient st = Some c → Mcp.getMcpClient connect st = (Js.Resolved c, st).
Proof. intros H. unfold Mcp.getMcpClient. rewrite H. reflexivity. Qed.

(** A call that finds the slot empty attempts exactly one connect, on the
    proxy-wrapped server URL, whatever comes of it. *)
Lemma getMcpClient_uncached_connects (st : Mcp.State Net) :
  Mcp.mcpClient st = None →
  Mcp.connects (snd (Mcp.getMcpClient connect st))
  = Mcp.connects st ++ [Mcp.PROXY_URL +:+ Mcp.serverUrl].
Proof.
  intros H. unfold Mcp.getMcpClient. rewrite H.
  destruct (connect _ _ _) as [[e|] net']; reflexivity.
Qed.

(** C9.  A call that finds the slot empty and whose connect succeeds performs
    one connect, on the proxy-wrapped server URL, fills the slot with the
    client it returns, and every later call -- from any state in which the
    slot still holds that client -- returns that same client object and
    leaves the state, the connect log included, as it is. *)
Theorem getMcpClient_connects_once (st : Mcp.State Net) (net' : Net) :
  Mcp.mcpClient st = None →
  connect (Mcp.new_Client (Mcp.next_ref st)) (Mcp.PROXY_URL +:+ Mcp.serverUrl) (Mcp.net st)
  = (None, net') →
  ∃ client st1,
    Mcp.getMcpClient connect st = (Js.Resolved client, st1)
    ∧ Mcp.connects st1 = Mcp.connects st ++ [Mcp.PROXY_URL +:+ Mcp.serverUrl]
    ∧ Mcp.mcpClient st1 = Some client
    ∧ ∀ st2 : Mcp.State Net,
        Mcp.mcpClient st2 = Mcp.mcpClient st1 →
        Mcp.getMcpClient connect st2 = (Js.Resolved client, st2).
Proof.
  intros Hnone Hconn. unfold Mcp.getMcpClient at 1. rewrite Hnone.
  cbv zeta. rewrite Hconn.
  eexists. eexists. split; [reflexivity|]. cbn [Mcp.connects Mcp.mcpClient].
  repeat split.
  intros st2 H2. apply getMcpClient_cached. exact H2.
Qed.

(** C10.  When the connect of an uncached call throws, the call throws the
    same error and leaves the slot empty; the next call then attempts a
    connect again, with a newly constructed client, and returns that client
    when this second connect succeeds. *)
Theorem getMcpClient_failure_not_cached (st : Mcp.State Net) (e : Js.Error) (net' : Net) :
  Mcp.mcpClient st = None →
  connect (Mcp.new_Client (Mcp.next_ref st)) (Mcp.PROXY_URL +:+ Mcp.serverUrl) (Mcp.net st)
  = (Some e, net') →
  ∃ st1,
    Mcp.getMcpClient connect st = (Js.Rejected e, st1)
    ∧ Mcp.mcpClient st1 = None
    ∧ Mcp.connects st1 = Mcp.connects st ++ [Mcp.PROXY_URL +:+ Mcp.serverUrl]
    ∧ Mcp.connects (snd (Mcp.getMcpClient connect st1))
      = Mcp.connects st1 ++ [Mcp.PROXY_URL +:+ Mcp.serverUrl]
    ∧ ∀ net'',
        connect (Mcp.new_Client (Mcp.next_ref st1)) (Mcp.PROXY_URL +:+ Mcp.serverUrl)
                (Mcp.net st1) = (None, net'') →
        fst (Mcp.getMcpClient connect st1) = Js.Resolved (Mcp.new_Client (Mcp.next_ref st1))
        ∧ Mcp.new_Client (Mcp.next_ref st1) ≠ Mcp.new_Client (Mcp.next_ref st).
Proof.
  intros Hnone Hconn. unfold Mcp.getMcpClient at 1. rewrite Hnone.
  cbv zeta. rewrite Hconn.
  eexists. split; [reflexivity|]. cbn [Mcp.connects Mcp.mcpClient].
  split; [reflexivity|]. split; [reflexivity|]. split.
  - apply getMcpClient_uncached_connects. reflexivity.
  - intros net'' H. split.
    + unfold Mcp.getMcpClient. cbn [Mcp.mcpClient]. cbv zeta. rewrite H. reflexivity.
    + cbn [Mcp.next_ref]. unfold Mcp.new_Client. intros Heq.
      injection Heq as Heq. lia.
Qed.

End AccessorFacts.

(** C9 at a sample: an unconnected accessor on a network that accepts. *)
Lemma getMcpClient_connects_once_witness :
  Mcp.mcpClient (Samples.unconnected [None]) = None
  ∧ ∃ client st1,
      Mcp.getMcpClient Samples.connect (Samples.unconnected [None]) = (Js.Resolved client, st1)
      ∧ Mcp.connects st1 = [] ++ [Mcp.PROXY_URL +:+ Mcp.serverUrl]
      ∧ Mcp.mcpClient st1 = Some client
      ∧ ∀ st2 : Mcp.State (list (option Js.Error)),
          Mcp.mcpClient st2 = Mcp.mcpClient st1 →
          Mcp.getMcpClient Samples.connect st2 = (Js.Resolved client, st2).
Proof.
  split; [reflexivity|].
  apply (getMcpClient_connects_once Samples.connect (Samples.unconnected [None]) []);
    reflexivity.
Defined.

(** C10 at a sample: the first connect is refused, the second accepted. *)
Lemma getMcpClient_failure_not_cached_witness :
  Mcp.mcpClient (Samples.unconnected [Some "offline"; None]) = None
  ∧ ∃ st1,
      Mcp.getMcpClient Samples.connect (Samples.unconnected [Some "offline"; None])
      = (Js.Rejected "offline", st1)
      ∧ Mcp.mcpClient st1 = None
      ∧ Mcp.connects (snd (Mcp.getMcpClient Samples.connect st1))
        = [Mcp.PROXY_URL +:+ Mcp.serverUrl; Mcp.PROXY_URL +:+ Mcp.serverUrl]
      ∧ fst (Mcp.getMcpClient Samples.connect st1) = Js.Resolved (Mcp.new_Client 1).
Proof.
  split; [reflexivity|].
  destruct (getMcpClient_failure_not_cached Samples.connect
              (Samples.unconnected [Some "offline"; None]) "offline" [None]
              eq_refl eq_refl) as (st1 & H1 & H2 & H3 & H4 & H5).
  exists st1. split; [exact H1|]. split; [exact H2|].
  injection H1 as <-. split; [reflexivity|].
  apply (H5 []). reflexivity.
Defined.

(* ===================================================================== *)
(** * The cloud sync menu: what the four handlers do *)
(* ===================================================================== *)

(** The properties the rest-spread of the backup removes, and the others. *)
Lemma get_omit (ks : list string) (k : string) (props : list (string * Js.value)) :
  Js.get k (Js.omit ks props) = if existsb (String.eqb k) ks then None else Js.get k props.
Proof.
  induction props as [|[k' v] props IH].
  - cbn. destruct (existsb _ ks); reflexivity.
  - unfold Js.omit in *. cbn [List.filter fst Js.get].
    destruct (String.eqb k k') eqn:Ek.
    + apply String.eqb_eq in Ek. subst k'.
      destruct (existsb (String.eqb k) ks) eqn:Eks; cbn [negb Js.get].
      * rewrite IH. reflexivity.
      * rewrite String.eqb_refl. reflexivity.
    + destruct (existsb (String.eqb k') ks); cbn [negb Js.get]; rewrite ?Ek; exact IH.
Qed.

Section HandlerFacts.

Import CloudSync.

Context {Ext Client : Type}.
Variable callTool : Client -> Sdk.ToolCall -> Ext -> Js.result unit * Ext.
Variable Date_now : Ext -> Z.
Variable rt : Js.Runtime.
Variable customers : list EstimatePDF.CustomerInfo.
Variable jobs : list Db.EstimateRecord.
Variable companyInfo : option EstimatePDF.CompanyInfo.
Variable getMcpClient : Ext -> Js.result Client * Ext.

Local Abbreviation handler_of :=
  (CloudSync.handler callTool Date_now rt customers jobs companyInfo getMcpClient).

(** Unfold a handler down to the calls it makes. *)
Ltac run_handler :=
  cbv [CloudSync.handler handleBackupToDrive handleExportToSheets handleCreateDocReport
       handleEmailReport generateReportContent requests run function bind ret return_
       try_catch_finally showStatus setStatus setActiveAction setIsOpen
       setTimeout_clear_status console_error await await_getMcpClient await_callTool
       new_Date default_duration Z.ltb Z.compare];
  cbn [fst snd isOpen status activeAction timers console trace ext].

(** Split on the outcome of the next call or test the handler reaches. *)
Ltac step_call :=
  match goal with
  | |- context [getMcpClient ?x] =>
      let E := fresh "Hget" in destruct (getMcpClient x) as [[?|?] ?] eqn:E
  | |- context [callTool ?c ?r ?x] =>
      let E := fresh "Hcall" in destruct (callTool c r x) as [[[]|?] ?] eqn:E
  | |- context [Nat.eqb (length ?l) 0] =>
      let E := fresh "Hlen" in destruct (Nat.eqb (length l) 0) eqn:E
  | |- context [opt_str_truthy ?o] =>
      let E := fresh "Hemail" in destruct (opt_str_truthy o) eqn:E
  end;
  cbn [fst snd negb isOpen status activeAction timers console trace ext].

(** The requests a finished handler made. *)
Ltac settle_requests :=
  rewrite <- ?app_assoc; rewrite ?drop_app_length, ?drop_all.




(** A run without jobs never reaches a tool call, whatever the accessor
    does. *)
Lemma export_without_jobs_calls_no_tool (w : World Ext) :
  jobs = [] →
  List.filter is_CallTool
    (requests (handleExportToSheets callTool Date_now rt customers jobs getMcpClient) w) = [].
Proof.
  intros ->. run_handler. cbn [dataForSheet map length Nat.eqb].
  repeat step_call; settle_requests; reflexivity.
Qed.


(** What is left of each job in the backup: none of the three attachments,
    every other property as it was. *)
Lemma jobsForBackup_strips :
  Forall2
    (fun job o =>
       Js.get "estimatePdf" o = None
       ∧ Js.get "materialOrderPdf" o = None
       ∧ Js.get "invoicePdf" o = None
       ∧ ∀ k, k ∉ ["estimatePdf"; "materialOrderPdf"; "invoicePdf"] →
              Js.get k o = Js.get k (Db.job_props job))
    jobs (jobsForBackup jobs).
Proof.
  unfold jobsForBackup. induction jobs as [|j js IH]; constructor; [|exact IH].
  repeat split; try (rewrite get_omit; reflexivity).
  intros k Hk. rewrite get_omit.
  destruct (existsb (String.eqb k) _) eqn:E; [|reflexivity].
  exfalso. apply Hk. apply existsb_exists in E as (k' & Hin & Heq).
  apply String.eqb_eq in Heq. subst k'. apply list_elem_of_In. exact Hin.
Qed.


End HandlerFacts.

(** ** The handlers over the sample outside world *)

Section HandlerSamples.

Import CloudSync.





(** When that connect is refused, the export without jobs ends with the
    failure message, not with the informational one. *)
Example export_without_jobs_connect_refused :
  let w := Samples.idle (Samples.outside [Some "offline"] []) in
  let h := Samples.handler [Samples.acme] [] (Samples.company (Some "owner@example.com"))
                           ExportToSheets in
  status (run h w) = "❌ Export failed. Check console."
  ∧ console (run h w) = [("Export to Sheets failed:", "offline")]
  ∧ requests h w = [GetMcpClient (Some "offline")].
Proof. cbv zeta. repeat split. Qed.


End HandlerSamples.

(* ===================================================================== *)
(** * The business report *)
(* ===================================================================== *)

Section ReportFacts.

Import Js CloudSync.

Lemma starts_with_here (x rest : string) : starts_with x (x +:+ rest).
Proof. exists rest. reflexivity. Qed.

Lemma starts_with_append (s x hay : string) :
  starts_with x hay → starts_with (s +:+ x) (s +:+ hay).
Proof. intros [rest ->]. exists rest. rewrite append_assoc. reflexivity. Qed.

Lemma includes_start (x hay : string) : starts_with x hay → includes x hay = true.
Proof.
  intros [rest ->]. rewrite includes_unfold, prefix_append. reflexivity.
Qed.

Lemma includes_skip (s x hay : string) : includes x hay = true → includes x (s +:+ hay) = true.
Proof.
  intros H. induction s as [|c s IH]; [exact H|].
  rewrite append_cons, includes_unfold, IH. destruct (String.prefix _ _); reflexivity.
Qed.

(** Find a run of consecutive pieces of a concatenation. *)
Ltac find_pieces :=
  first [ solve [apply includes_start; repeat apply starts_with_append; apply starts_with_here]
        | apply includes_skip; find_pieces ].

Lemma counted_quote_or_else (j : Db.EstimateRecord) :
  or_else (Db.finalQuote (Db.costsData j)) zero = ReportSpec.counted_quote j.
Proof.
  unfold ReportSpec.counted_quote, or_else, truthy.
  destruct (Db.finalQuote (Db.costsData j)); reflexivity.
Qed.

(** Filtering by status and folding the sum is the running total. *)
Lemma fold_filter_total (s : Db.JobStatus) (jobs : list Db.EstimateRecord) (acc : number) :
  fold_left (fun sum j => add sum (or_else (Db.finalQuote (Db.costsData j)) zero))
            (List.filter (fun j => Db.JobStatus_eqb (Db.status j) s) jobs) acc
  = ReportSpec.total_from acc s jobs.
Proof.
  revert acc. induction jobs as [|j jobs IH]; intros acc; [reflexivity|].
  cbn [List.filter ReportSpec.total_from].
  destruct (Db.status j), s; cbn [Db.JobStatus_eqb fold_left];
    rewrite ?counted_quote_or_else; apply IH.
Qed.

Lemma shown_customer_name (customers : list EstimatePDF.CustomerInfo) (j : Db.EstimateRecord) :
  opt_str_or_else (EstimatePDF.name <$> find_customer customers j) "N/A"
  = ReportSpec.customer_name customers j.
Proof.
  unfold find_customer.
  induction customers as [|c cs IH]; [reflexivity|].
  cbn [List.find ReportSpec.customer_name].
  destruct (EstimatePDF.id c =? Db.customerId j)%Z; [|exact IH].
  cbn. destruct (EstimatePDF.name c); reflexivity.
Qed.

Lemma recent_job_line_summary (rt : Runtime) (customers : list EstimatePDF.CustomerInfo)
  (j : Db.EstimateRecord) :
  recent_job_line rt customers j = ReportSpec.summary_line rt customers j.
Proof.
  unfold recent_job_line, ReportSpec.summary_line. rewrite shown_customer_name. reflexivity.
Qed.

(** The lines of the first [n] elements: one for each position below [n],
    none for a later position. *)
Lemma lookup_lines_of_take {A B : Type} (f : A → B) (n : nat) (l : list A) (i : nat) (x : A) :
  l !! i = Some x →
  map f (take n l) !! i = if (i <? n)%nat then Some (f x) else None.
Proof.
  intros Hi. change (map f (take n l)) with (f <$> take n l).
  rewrite list_lookup_fmap. destruct (Nat.ltb_spec i n) as [Hlt|Hge].
  - rewrite lookup_take_lt by exact Hlt. rewrite Hi. reflexivity.
  - rewrite lookup_take_ge by exact Hge. reflexivity.
Qed.

Context {Ext : Type}.
Variable Date_now : Ext -> Z.
Variable rt : Runtime.
Variable customers : list EstimatePDF.CustomerInfo.
Variable jobs : list Db.EstimateRecord.

(** C6 (as the code has it).  Whatever the customers and the jobs, the
    report is produced, changes nothing, and contains: the time of
    generation; the number of customers; the number of jobs; as total
    revenue the sum, with two decimals, of the [finalQuote] of the jobs in
    status [paid], and as outstanding receivables that of the jobs in status
    [invoiced] (a quote that is zero or not a number counting as 0); and,
    under "Recent Jobs", one summary line -- estimate number, customer name
    or "N/A", status, quote with two decimals -- for each of the first five
    jobs of the list, in the order of the list.  The report is exactly the
    heading, these five entries and the list of these lines, which ends the
    report: the job at a position below five has its line at that position,
    and a job at a later position has no line. *)
Theorem report_contents (w : World Ext) :
  ∃ (report : string) (lines : list string),
    generateReportContent Date_now rt customers jobs w = (Normal report, w)
    ∧ includes ("Generated on: " +:+ Date_toLocaleString rt (Date_now (ext w)) +:+ newline)
               report = true
    ∧ includes ("- **Total Customers:** " +:+ pretty (length customers) +:+ newline)
               report = true
    ∧ includes ("- **Total Jobs Logged:** " +:+ pretty (length jobs) +:+ newline)
               report = true
    ∧ includes ("- **Total Revenue (Paid):** $"
                +:+ toFixed2_text rt (ReportSpec.quote_total Db.paid jobs) +:+ newline)
               report = true
    ∧ includes ("- **Outstanding A/R (Invoiced):** $"
                +:+ toFixed2_text rt (ReportSpec.quote_total Db.invoiced jobs) +:+ newline)
               report = true
    ∧ includes ("## Recent Jobs" +:+ newline
                +:+ join newline (map (ReportSpec.summary_line rt customers) (take 5 jobs))
                +:+ newline)
               report = true
    ∧ report
      = newline
        +:+ "# Business Summary Report" +:+ newline
        +:+ newline
        +:+ "Generated on: " +:+ Date_toLocaleString rt (Date_now (ext w)) +:+ newline
        +:+ newline
        +:+ "## Key Metrics" +:+ newline
        +:+ "- **Total Customers:** " +:+ pretty (length customers) +:+ newline
        +:+ "- **Total Jobs Logged:** " +:+ pretty (length jobs) +:+ newline
        +:+ "- **Total Revenue (Paid):** $"
        +:+ toFixed2_text rt (ReportSpec.quote_total Db.paid jobs) +:+ newline
        +:+ "- **Outstanding A/R (Invoiced):** $"
        +:+ toFixed2_text rt (ReportSpec.quote_total Db.invoiced jobs) +:+ newline
        +:+ newline
        +:+ "## Recent Jobs" +:+ newline
        +:+ join newline lines +:+ newline
        +:+ "        "
    ∧ length lines = Nat.min 5 (length jobs)
    ∧ ∀ (i : nat) (j : Db.EstimateRecord),
        jobs !! i = Some j →
        lines !! i
        = if (i <? 5)%nat then Some (ReportSpec.summary_line rt customers j) else None.
Proof.
  eexists. exists (map (ReportSpec.summary_line rt customers) (take 5 jobs)).
  split; [reflexivity|].
  rewrite !fold_filter_total. fold (ReportSpec.quote_total Db.paid jobs).
  fold (ReportSpec.quote_total Db.invoiced jobs).
  rewrite (map_ext _ _ (recent_job_line_summary rt customers)).
  do 6 (split; [find_pieces|]).
  split; [reflexivity|]. split.
  - rewrite length_map. apply length_take.
  - intros i j Hi. apply lookup_lines_of_take. exact Hi.
Qed.

End ReportFacts.

(** C6 at the six sample jobs, listed oldest first: the first five have
    their line, the sixth -- the most recent one -- has none. *)
Lemma report_contents_witness :
  let w := Samples.idle (Samples.outside [] []) in
  ∃ report lines,
    CloudSync.generateReportContent Samples.clock Samples.runtime [Samples.acme]
      Samples.six_jobs w = (CloudSync.Normal report, w)
    ∧ Samples.six_jobs !! 5%nat = Some (Samples.job "E-6" 6000 Db.invoiced 750)
    ∧ length lines = 5%nat
    ∧ lines !! 4%nat
      = Some (ReportSpec.summary_line Samples.runtime [Samples.acme]
                (Samples.job "E-5" 5000 Db.paid 500))
    ∧ lines !! 5%nat = None.
Proof.
  cbv zeta.
  destruct (report_contents Samples.clock Samples.runtime [Samples.acme] Samples.six_jobs
              (Samples.idle (Samples.outside [] [])))
    as (report & lines & Hrun & _ & _ & _ & _ & _ & _ & _ & Hlen & Hlines).
  exists report, lines. split; [exact Hrun|]. split; [reflexivity|].
  split; [exact Hlen|]. split.
  - exact (Hlines 4%nat _ eq_refl).
  - exact (Hlines 5%nat _ eq_refl).
Defined.

(** C6 (as the specification words it) fails: of six jobs listed oldest
    first, the most recent one has no line in the report -- its estimate
    number does not occur in it at all -- while the oldest one has. *)
Lemma report_omits_most_recent_job :
  let w := Samples.idle (Samples.outside [] []) in
  let newest := Samples.job "E-6" 6000 Db.invoiced 750 in
  ∃ report,
    CloudSync.generateReportContent Samples.clock Samples.runtime [Samples.acme]
      Samples.six_jobs w = (CloudSync.Normal report, w)
    ∧ ReportSpec.among_most_recent 5 Samples.six_jobs newest
    ∧ Js.includes (ReportSpec.summary_line Samples.runtime [Samples.acme] newest) report = false
    ∧ Js.includes "E-6" report = false
    ∧ Js.includes "E-1" report = true.
Proof.
  cbv zeta. eexists. split; [reflexivity|]. split.
  - split.
    + unfold Samples.six_jobs. rewrite !elem_of_cons. tauto.
    + vm_compute. lia.
  - repeat split; vm_compute; reflexivity.
Qed.

(** A paid job whose quote is not a number counts for nothing: the report
    shows the total of the other paid jobs. *)
Example report_counts_missing_quote_as_zero :
  ∃ report,
    CloudSync.generateReportContent Samples.clock Samples.runtime [Samples.acme]
      [Samples.job_without_quote; Samples.job_E1 1000] (Samples.idle (Samples.outside [] []))
    = (CloudSync.Normal report, Samples.idle (Samples.outside [] []))
    ∧ Js.includes "- **Total Revenue (Paid):** $500.00" report = true
    ∧ fold_left Js.add [Js.NaN; Js.of_Z 500] Js.zero = Js.NaN.
Proof.
  eexists. split; [reflexivity|]. split; vm_compute; reflexivity.
Qed.

(* ===================================================================== *)
(** * The automation editor: frame and invariants *)
(* ===================================================================== *)

Section EditorFacts.
Import Types AutomationEditor.

(** [map_alloc], one element at a time. *)
Lemma map_alloc_cons {A B : Type} (f : A -> Alloc B) (x : A) (rest : list A) (h : nat) :
  map_alloc f (x :: rest) h
  = (fst (f x h) :: fst (map_alloc f rest (snd (f x h))),
     snd (map_alloc f rest (snd (f x h)))).
Proof.
  cbn [map_alloc]. unfold and_then, pure.
  destruct (f x h) as [y h1]. cbn [fst snd].
  destruct (map_alloc f rest h1) as [ys h2]. reflexivity.
Qed.

Lemma map_alloc_length {A B : Type} (f : A -> Alloc B) (xs : list A) (h : nat) :
  length (fst (map_alloc f xs h)) = length xs.
Proof.
  revert h. induction xs as [|x rest IH]; intros h; [reflexivity|].
  rewrite map_alloc_cons. cbn [fst length]. rewrite IH. reflexivity.
Qed.

Lemma map_alloc_lookup {A B : Type} (f : A -> Alloc B) (xs : list A) (h : nat) (j : nat) (a : A) :
  xs !! j = Some a → ∃ h', fst (map_alloc f xs h) !! j = Some (fst (f a h')).
Proof.
  revert h j. induction xs as [|x rest IH]; intros h j Hj; [discriminate Hj|].
  rewrite map_alloc_cons. cbn [fst]. destruct j as [|j].
  - injection Hj as ->. exists h. reflexivity.
  - apply (IH (snd (f x h)) j Hj).
Qed.

Lemma map_alloc_ids (f : Action -> Alloc Action) (xs : list Action) (h : nat) :
  (∀ a h', id (fst (f a h')) = id a) →
  map id (fst (map_alloc f xs h)) = map id xs.
Proof.
  intros Hid. revert h. induction xs as [|x rest IH]; intros h; [reflexivity|].
  rewrite map_alloc_cons. cbn [fst map]. rewrite Hid, IH. reflexivity.
Qed.

Lemma handleActionChange_actions (actionId : Z) (value : ActionType) (prev : Automation) (h : nat) :
  actions (fst (handleActionChange actionId value prev h))
  = fst (map_alloc
           (fun action =>
              if (id action =? actionId)%Z then
                new (fun r => {| ref := r; id := id action; action_type := value;
                                 action_config := ∅ |})
              else pure action)
           (actions prev) h).
Proof.
  unfold handleActionChange, and_then. destruct (map_alloc _ _ _). reflexivity.
Qed.

Lemma handleActionConfigChange_actions (actionId : Z) (configField value : string)
  (prev : Automation) (h : nat) :
  actions (fst (handleActionConfigChange actionId configField value prev h))
  = fst (map_alloc
           (fun action =>
              if (id action =? actionId)%Z then
                new (fun r => {| ref := r; id := id action; action_type := action_type action;
                                 action_config :=
                                   <[configField := value]> (action_config action) |})
              else pure action)
           (actions prev) h).
Proof.
  unfold handleActionConfigChange, and_then. destruct (map_alloc _ _ _). reflexivity.
Qed.

Ltac lookup_mapped H :=
  match goal with
  | |- context [fst (map_alloc ?f ?xs ?h) !! ?j] =>
      let h1 := fresh "h" in
      destruct (map_alloc_lookup f xs h j _ H) as [h1 ->]
  end.

Lemma lookup_action_ids (a : Automation) (i : nat) (b : Action) :
  actions a !! i = Some b → action_ids a !! i = Some (id b).
Proof.
  unfold action_ids. revert i. induction (actions a) as [|x rest IH]; intros i H.
  - discriminate H.
  - destruct i as [|i]; [injection H as ->; reflexivity | exact (IH i H)].
Qed.

(** C4 (as the code has it).  Take any draft and any change of a field other
    than putting a whole new action list in place: a new name, trigger,
    trigger parameter or enabled flag, a new type for the actions with a
    given identifier, or a new configuration entry for them.  The action
    list keeps its length; every action with another identifier than the one
    the change names is afterwards the very same object at the same
    position; after a change of type, each action with the identifier named
    has the new type, its old identifier and the empty mapping as
    configuration; and in a draft without a repeated identifier, a change
    aimed at the action at one position leaves the action at every other
    position the same object. *)
Theorem field_change_frame (c : Change) (prev : Automation) (h : nat) :
  replaces_actions c = false →
  let next := fst (apply_change c prev h) in
  length (actions next) = length (actions prev)
  ∧ (∀ j b, actions prev !! j = Some b → targets c b = false → actions next !! j = Some b)
  ∧ (∀ actionId value j b,
       c = ChangeActionType actionId value →
       actions prev !! j = Some b → id b = actionId →
       ∃ b', actions next !! j = Some b'
             ∧ action_config b' = ∅ ∧ action_type b' = value ∧ id b' = id b)
  ∧ (distinct_ids prev →
     ∀ i a j b,
       actions prev !! i = Some a → targets c a = true →
       j ≠ i → actions prev !! j = Some b → actions next !! j = Some b).
Proof.
  intros Hc next.
  assert (Hframe : length (actions next) = length (actions prev)
     ∧ (∀ j b, actions prev !! j = Some b → targets c b = false → actions next !! j = Some b)
     ∧ (∀ actionId value j b,
          c = ChangeActionType actionId value →
          actions prev !! j = Some b → id b = actionId →
          ∃ b', actions next !! j = Some b'
                ∧ action_config b' = ∅ ∧ action_type b' = value ∧ id b' = id b)).
  { subst next.
    destruct c as [fv|k v|actionId value|actionId k v]; cbn [apply_change targets].
    - destruct fv; try discriminate Hc; cbn; repeat split; auto; intros; discriminate.
    - cbn. repeat split; auto; intros; discriminate.
    - rewrite handleActionChange_actions.
      split; [apply map_alloc_length|]. split.
      + intros j b Hj Ht. lookup_mapped Hj. rewrite Ht. reflexivity.
      + intros actionId' value' j b Heq Hj Hid. injection Heq as <- <-.
        lookup_mapped Hj. rewrite Hid, Z.eqb_refl.
        eexists. split; [reflexivity|]. cbn. auto.
    - rewrite handleActionConfigChange_actions.
      split; [apply map_alloc_length|]. split.
      + intros j b Hj Ht. lookup_mapped Hj. rewrite Ht. reflexivity.
      + intros; discriminate. }
  destruct Hframe as (Hlen & Hother & Htype).
  split; [exact Hlen|]. split; [exact Hother|]. split; [exact Htype|].
  intros Hnd i a j b Hi Ha Hji Hj. apply Hother; [exact Hj|].
  assert (Hids : id b ≠ id a).
  { intros Heq. apply Hji.
    apply (NoDup_lookup (action_ids prev) j i (id b) Hnd).
    - apply lookup_action_ids. exact Hj.
    - rewrite Heq. apply lookup_action_ids. exact Hi. }
  destruct c as [fv|k v|actionId value|actionId k v]; cbn [targets] in *;
    try reflexivity; apply Z.eqb_eq in Ha; apply Z.eqb_neq; congruence.
Qed.

(** The identifiers after a change of type or configuration are the ones
    before. *)
Lemma handleActionChange_ids (actionId : Z) (value : ActionType) (prev : Automation) (h : nat) :
  action_ids (fst (handleActionChange actionId value prev h)) = action_ids prev.
Proof.
  unfold action_ids. rewrite handleActionChange_actions. apply map_alloc_ids.
  intros a h'. destruct (id a =? actionId)%Z; reflexivity.
Qed.

Lemma handleActionConfigChange_ids (actionId : Z) (k v : string) (prev : Automation) (h : nat) :
  action_ids (fst (handleActionConfigChange actionId k v prev h)) = action_ids prev.
Proof.
  unfold action_ids. rewrite handleActionConfigChange_actions. apply map_alloc_ids.
  intros a h'. destruct (id a =? actionId)%Z; reflexivity.
Qed.

Lemma addAction_ids (now : Z) (prev : Automation) (h : nat) :
  action_ids (fst (addAction now prev h)) = action_ids prev ++ [now].
Proof. unfold action_ids. cbn. rewrite map_app. reflexivity. Qed.

Lemma removeAction_ids (actionId : Z) (prev : Automation) :
  action_ids (removeAction actionId prev)
  = List.filter (fun i => negb (i =? actionId)%Z) (action_ids prev).
Proof.
  unfold action_ids, removeAction. cbn [actions with_actions].
  induction (actions prev) as [|a rest IH]; [reflexivity|].
  cbn [List.filter map]. destruct (id a =? actionId)%Z; cbn [negb map]; rewrite IH; reflexivity.
Qed.

Lemma NoDup_filter_ids (p : Z -> bool) (ids : list Z) : NoDup ids → NoDup (List.filter p ids).
Proof.
  induction 1 as [|i ids Hi _ IH]; [constructor|].
  cbn [List.filter]. destruct (p i); [|exact IH].
  constructor; [|exact IH]. intros Hin. apply Hi.
  apply list_elem_of_In in Hin. apply filter_In in Hin as [Hin _].
  apply list_elem_of_In. exact Hin.
Qed.

(** With two or more pairwise distinct identifiers, removing one leaves
    something. *)
Lemma filter_ids_nonempty (actionId : Z) (ids : list Z) :
  NoDup ids → 1 < length ids → List.filter (fun i => negb (i =? actionId)%Z) ids ≠ [].
Proof.
  intros Hnd Hlen. destruct ids as [|x [|y rest]]; cbn [length] in Hlen; try lia.
  cbn [List.filter]. destruct (x =? actionId)%Z eqn:Ex; cbn [negb]; [|discriminate].
  destruct (y =? actionId)%Z eqn:Ey; cbn [negb]; [|discriminate].
  apply Z.eqb_eq in Ex, Ey. subst x y. exfalso.
  apply NoDup_cons in Hnd as [Hnot _]. apply Hnot. constructor.
Qed.

Lemma action_ids_nonempty (a : Automation) : action_ids a ≠ [] ↔ actions a ≠ [].
Proof. unfold action_ids. destruct (actions a); cbn; split; intros H; congruence. Qed.

Variable loaded_at : Z.

(** Timely events keep the identifiers distinct. *)
Lemma dispatch_distinct_ids (ev : UiEvent) (ed : Editor) :
  distinct_ids (automation ed) → timely distinct_ids ev ed →
  distinct_ids (automation (dispatch loaded_at ev ed)).
Proof.
  intros Hnd Ht. unfold distinct_ids in *.
  destruct ev as [[ex|]|v|v|v|b|i v|i k v|now|i]; cbn [dispatch timely] in *;
    unfold setAutomation, pure; cbn [automation]; try assumption.
  - repeat constructor. apply not_elem_of_nil.
  - destruct (status_select_rendered _); cbn; assumption.
  - destruct (actions (automation ed) !! i) as [a|]; [|assumption].
    destruct (handleActionChange _ _ _ _) as [next h'] eqn:E.
    apply (f_equal fst) in E. cbn [fst automation] in *. subst next.
    rewrite handleActionChange_ids. assumption.
  - destruct (actions (automation ed) !! i) as [a|]; [|assumption].
    destruct (bool_decide _); [|assumption].
    destruct (handleActionConfigChange _ _ _ _ _) as [next h'] eqn:E.
    apply (f_equal fst) in E. cbn [fst automation] in *. subst next.
    rewrite handleActionConfigChange_ids. assumption.
  - destruct (addAction _ _ _) as [next h'] eqn:E.
    apply (f_equal fst) in E. cbn [fst automation] in *. subst next.
    rewrite addAction_ids. apply NoDup_app. split; [exact Hnd|]. split.
    + intros x Hx Hx'. apply list_elem_of_singleton in Hx'. subst x. exact (Ht Hx).
    + apply NoDup_singleton.
  - destruct (actions (automation ed) !! i) as [a|]; [|assumption].
    destruct (remove_button_rendered _); [|assumption].
    cbn [automation]. rewrite removeAction_ids. apply NoDup_filter_ids. exact Hnd.
Qed.

(** While the identifiers are distinct, no event removes the last action. *)
Lemma dispatch_keeps_an_action (ev : UiEvent) (ed : Editor) :
  well_formed (automation ed) → timely well_formed ev ed →
  actions (automation (dispatch loaded_at ev ed)) ≠ [].
Proof.
  intros [Hne Hnd] Ht. unfold distinct_ids in *.
  destruct ev as [[ex|]|v|v|v|b|i v|i k v|now|i]; cbn [dispatch timely] in *;
    unfold setAutomation, pure; cbn [automation]; try assumption.
  - apply Ht.
  - discriminate.
  - destruct (status_select_rendered _); cbn; assumption.
  - destruct (actions (automation ed) !! i) as [a|]; [|assumption].
    destruct (handleActionChange _ _ _ _) as [next h'] eqn:E.
    apply (f_equal fst) in E. cbn [fst automation] in *. subst next.
    rewrite <- action_ids_nonempty, handleActionChange_ids, action_ids_nonempty.
    assumption.
  - destruct (actions (automation ed) !! i) as [a|]; [|assumption].
    destruct (bool_decide _); [|assumption].
    destruct (handleActionConfigChange _ _ _ _ _) as [next h'] eqn:E.
    apply (f_equal fst) in E. cbn [fst automation] in *. subst next.
    rewrite <- action_ids_nonempty, handleActionConfigChange_ids, action_ids_nonempty.
    assumption.
  - destruct (addAction _ _ _) as [next h'] eqn:E.
    apply (f_equal fst) in E. cbn [fst automation] in *. subst next.
    rewrite <- action_ids_nonempty, addAction_ids.
    destruct (action_ids (automation ed)); discriminate.
  - destruct (actions (automation ed) !! i) as [a|]; [|assumption].
    destruct (remove_button_rendered _) eqn:Er; [|assumption].
    cbn [automation]. rewrite <- action_ids_nonempty, removeAction_ids.
    apply filter_ids_nonempty; [exact Hnd|].
    unfold remove_button_rendered in Er. apply Nat.ltb_lt in Er.
    unfold action_ids. rewrite length_map. exact Er.
Qed.

Lemma timely_weaken (ev : UiEvent) (ed : Editor) :
  timely well_formed ev ed → timely distinct_ids ev ed.
Proof. destruct ev as [[ex|]| | | | | | | |]; cbn; try tauto. intros [_ H]. exact H. Qed.

Lemma dispatch_all_distinct_ids (evs : list UiEvent) (ed : Editor) :
  distinct_ids (automation ed) → all_timely distinct_ids loaded_at evs ed →
  distinct_ids (automation (dispatch_all loaded_at evs ed)).
Proof.
  revert ed. induction evs as [|ev evs IH]; intros ed Hnd Ht; [exact Hnd|].
  destruct Ht as [Hev Hrest]. cbn [dispatch_all fold_left].
  apply IH; [apply dispatch_distinct_ids; assumption | exact Hrest].
Qed.

Lemma dispatch_all_well_formed (evs : list UiEvent) (ed : Editor) :
  well_formed (automation ed) → all_timely well_formed loaded_at evs ed →
  well_formed (automation (dispatch_all loaded_at evs ed)).
Proof.
  revert ed. induction evs as [|ev evs IH]; intros ed Hwf Ht; [exact Hwf|].
  destruct Ht as [Hev Hrest]. cbn [dispatch_all fold_left].
  apply IH; [|exact Hrest]. split.
  - apply dispatch_keeps_an_action; assumption.
  - apply dispatch_distinct_ids; [apply Hwf | apply timely_weaken; exact Hev].
Qed.

Lemma EMPTY_AUTOMATION_well_formed : well_formed (EMPTY_AUTOMATION loaded_at).
Proof. split; [discriminate | repeat constructor; apply not_elem_of_nil]. Qed.

(** C5 (as the code has it).  Start from the default draft or from an
    existing automation that has at least one action and no identifier
    twice, and let every event be timely: every added action is stamped with
    a clock reading that is not already the identifier of a listed action,
    and every automation the parent passes in later has at least one action
    and no identifier twice either.  Then every draft the editor reaches has
    at least one action.  And in any editor whose draft has exactly one
    action, a click on a remove control changes nothing, because no such
    control is rendered. *)
Theorem editor_keeps_an_action (existing : option Automation) (h : nat) (evs : list UiEvent) :
  (∀ a, existing = Some a → well_formed a) →
  all_timely well_formed loaded_at evs (mount loaded_at existing h) →
  actions (automation (dispatch_all loaded_at evs (mount loaded_at existing h))) ≠ []
  ∧ ∀ ed i, length (actions (automation ed)) = 1 →
            dispatch loaded_at (RemoveActionClick i) ed = ed.
Proof.
  intros Hex Ht. split.
  - apply (dispatch_all_well_formed evs); [|exact Ht].
    destruct existing as [a|]; [apply Hex; reflexivity | apply EMPTY_AUTOMATION_well_formed].
  - intros ed i Hlen. cbn [dispatch]. unfold remove_button_rendered. rewrite Hlen.
    destruct (actions (automation ed) !! i); reflexivity.
Qed.

(** C8 (as the code has it).  Start from the default draft or from an
    existing automation in which no identifier occurs twice, and let every
    event be timely: every added action is stamped with a clock reading
    that is not already the identifier of a listed action, and no automation
    the parent passes in later has an identifier twice.  Then the
    identifiers of the actions of every draft the editor reaches are
    pairwise distinct. *)
Theorem editor_keeps_ids_distinct (existing : option Automation) (h : nat)
  (evs : list UiEvent) :
  (∀ a, existing = Some a → distinct_ids a) →
  all_timely distinct_ids loaded_at evs (mount loaded_at existing h) →
  NoDup (action_ids (automation (dispatch_all loaded_at evs (mount loaded_at existing h)))).
Proof.
  intros Hex Ht. apply (dispatch_all_distinct_ids evs); [|exact Ht].
  destruct existing as [a|]; [apply Hex; reflexivity | apply EMPTY_AUTOMATION_well_formed].
Qed.

End EditorFacts.

(** ** The editor at samples *)

Section EditorSamples.

Import Types AutomationEditor.

(** The sample session is timely. *)
Lemma session_timely (ok : Automation → Prop) :
  all_timely ok 1000 Samples.session Samples.new_editor.
Proof.
  cbn. repeat split. intros H. apply list_elem_of_singleton in H. discriminate H.
Qed.

(** C4 at a sample: the second of two actions is made a webhook. *)
Lemma field_change_frame_witness :
  let prev := automation (dispatch 1000 (AddActionClick 2000) Samples.new_editor) in
  let next := fst (apply_change (ChangeActionType 2000 webhook) prev 2) in
  replaces_actions (ChangeActionType 2000 webhook) = false
  ∧ length (actions next) = length (actions prev)
  ∧ actions next !! 0 = actions prev !! 0
  ∧ ∃ b', actions next !! 1 = Some b'
          ∧ action_config b' = ∅ ∧ action_type b' = webhook ∧ id b' = 2000%Z.
Proof.
  cbv zeta. split; [reflexivity|].
  destruct (field_change_frame (ChangeActionType 2000 webhook)
              (automation (dispatch 1000 (AddActionClick 2000) Samples.new_editor)) 2 eq_refl)
    as (Hlen & Hframe & Htarget & _).
  split; [exact Hlen|]. split.
  - apply (Hframe 0 {| ref := 0; id := 1000; action_type := create_task; action_config := ∅ |});
      reflexivity.
  - apply (Htarget 2000%Z webhook 1
             {| ref := 1; id := 2000; action_type := create_task; action_config := ∅ |});
      reflexivity.
Defined.

(** With a repeated identifier, a change aimed at one action reaches every
    action with that identifier: after two adds within one millisecond, a
    new type for the second action is a new type for the third one too. *)
Example change_reaches_every_action_with_the_id :
  let ed := dispatch_all 1000 (Samples.double_add ++ [ActionTypeSelect 1 webhook])
                         Samples.new_editor in
  action_type <$> actions (automation ed) = [create_task; webhook; webhook].
Proof. reflexivity. Qed.

(** C4 (as the specification words it) fails: after two adds within one
    millisecond the second and the third action carry the same identifier,
    and a new type chosen for the second action replaces the third action
    as well -- by a new object with the new type and an empty
    configuration. *)
Lemma type_change_replaces_another_action :
  let ed := dispatch_all 1000 Samples.double_add Samples.new_editor in
  let ed' := dispatch 1000 (ActionTypeSelect 1 webhook) ed in
  action_ids (automation ed) = [1000; 2000; 2000]%Z
  ∧ length (actions (automation ed')) = length (actions (automation ed))
  ∧ (∃ b b',
       actions (automation ed) !! 2%nat = Some b
       ∧ actions (automation ed') !! 2%nat = Some b'
       ∧ action_type b = create_task ∧ action_type b' = webhook
       ∧ ref b ≠ ref b')
  ∧ ¬ (∀ j, j ≠ 1%nat → actions (automation ed') !! j = actions (automation ed) !! j).
Proof.
  cbv zeta. split; [reflexivity|]. split; [reflexivity|]. split.
  - eexists. eexists. split; [reflexivity|]. split; [reflexivity|].
    split; [reflexivity|]. split; [reflexivity|]. cbn. lia.
  - intros H. specialize (H 2%nat ltac:(lia)). vm_compute in H. discriminate H.
Qed.

(** C5 at a sample: the session ends with one action, the email. *)
Lemma editor_keeps_an_action_witness :
  all_timely well_formed 1000 Samples.session Samples.new_editor
  ∧ actions (automation (dispatch_all 1000 Samples.session Samples.new_editor)) ≠ []
  ∧ dispatch 1000 (RemoveActionClick 0) Samples.new_editor = Samples.new_editor.
Proof.
  split; [exact (session_timely well_formed)|].
  destruct (editor_keeps_an_action 1000 None 1 Samples.session) as [Hne Hlast].
  - intros a H. discriminate H.
  - exact (session_timely well_formed).
  - split; [exact Hne|]. apply Hlast. reflexivity.
Defined.

(** C8 at a sample. *)
Lemma editor_keeps_ids_distinct_witness :
  all_timely distinct_ids 1000 Samples.session Samples.new_editor
  ∧ NoDup (action_ids (automation (dispatch_all 1000 Samples.session Samples.new_editor))).
Proof.
  split; [exact (session_timely distinct_ids)|].
  apply (editor_keeps_ids_distinct 1000 None 1 Samples.session).
  - intros a H. discriminate H.
  - exact (session_timely distinct_ids).
Defined.

Example session_result :
  action_ids (automation (dispatch_all 1000 Samples.session Samples.new_editor)) = [2000%Z]
  ∧ name (automation (dispatch_all 1000 Samples.session Samples.new_editor)) = "Follow up".
Proof. split; reflexivity. Qed.

(** C8 (as the specification words it) fails: two actions added within the
    same millisecond carry the same identifier. *)
Lemma double_add_repeats_an_id :
  action_ids (automation (dispatch_all 1000 Samples.double_add Samples.new_editor))
  = [1000; 2000; 2000]%Z
  ∧ ¬ NoDup (action_ids (automation (dispatch_all 1000 Samples.double_add Samples.new_editor))).
Proof.
  split; [reflexivity|].
  change (action_ids (automation (dispatch_all 1000 Samples.double_add Samples.new_editor)))
    with [1000; 2000; 2000]%Z.
  intros H. apply NoDup_cons in H as [_ H]. apply NoDup_cons in H as [H _].
  apply H. constructor.
Qed.

(** C5 (as the specification words it) fails: after two actions were added
    within the same millisecond and the first action was removed, two
    actions with one identifier are left, the remove controls are rendered,
    and a click on one of them removes both: the draft has no action. *)
Lemma double_add_then_remove_leaves_no_action :
  length (actions (automation
            (dispatch_all 1000 (Samples.double_add ++ [RemoveActionClick 0])
                          Samples.new_editor))) = 2
  ∧ remove_button_rendered
      (automation (dispatch_all 1000 (Samples.double_add ++ [RemoveActionClick 0])
                                Samples.new_editor)) = true
  ∧ actions (automation
               (dispatch_all 1000 Samples.double_add_then_remove Samples.new_editor)) = [].
Proof. repeat split. Qed.

(** The handler [removeAction] itself does remove the only action of a
    draft; it is the form that offers no control to call it. *)
Example removeAction_of_the_only_action :
  actions (removeAction 1000 (EMPTY_AUTOMATION 1000)) = [].
Proof. reflexivity. Qed.

End EditorSamples.

(* ===================================================================== *)
(** * The cloud sync menu: every run of every handler *)
(* ===================================================================== *)

Section MenuFacts.

Import CloudSync.

Context {Ext Client : Type}.
Variable callTool : Client -> Sdk.ToolCall -> Ext -> Js.result unit * Ext.
Variable Date_now : Ext -> Z.
Variable rt : Js.Runtime.
Variable customers : list EstimatePDF.CustomerInfo.
Variable jobs : list Db.EstimateRecord.
Variable companyInfo : option EstimatePDF.CompanyInfo.
Variable getMcpClient : Ext -> Js.result Client * Ext.

Local Abbreviation menu_handler :=
  (CloudSync.handler callTool Date_now rt customers jobs companyInfo getMcpClient).

Ltac unfold_handler :=
  cbv [CloudSync.handler handleBackupToDrive handleExportToSheets handleCreateDocReport
       handleEmailReport generateReportContent requests run function bind ret return_
       try_catch_finally showStatus setStatus setActiveAction setIsOpen
       setTimeout_clear_status console_error await await_getMcpClient await_callTool
       new_Date default_duration Z.ltb Z.compare];
  cbn [fst snd isOpen status activeAction timers console trace ext].

Ltac next_outcome :=
  match goal with
  | |- context [getMcpClient ?x] =>
      let E := fresh "Hget" in destruct (getMcpClient x) as [[?|?] ?] eqn:E
  | |- context [callTool ?c ?r ?x] =>
      let E := fresh "Hcall" in destruct (callTool c r x) as [[[]|?] ?] eqn:E
  | |- context [Nat.eqb (length ?l) 0] =>
      let E := fresh "Hlen" in destruct (Nat.eqb (length l) 0) eqn:E
  | |- context [opt_str_truthy ?o] =>
      let E := fresh "Hemail" in destruct (opt_str_truthy o) eqn:E
  end;
  cbn [fst snd negb isOpen status activeAction timers console trace ext].

Ltac all_outcomes :=
  unfold_handler; repeat next_outcome;
  rewrite <- ?app_assoc; rewrite ?drop_app_length, ?drop_all.

Ltac none_threw H :=
  repeat (apply Exists_cons in H; destruct H as [H|H]; [discriminate H|]);
  apply Exists_nil in H; destruct H.

Ltac some_threw H :=
  repeat (apply Forall_cons in H as [? H]); discriminate.

Lemma dataForSheet_length : length (dataForSheet rt customers jobs) = length jobs.
Proof. unfold dataForSheet. apply length_map. Qed.

Lemma no_rows_no_jobs : Nat.eqb (length (dataForSheet rt customers jobs)) 0 = true → jobs = [].
Proof.
  intros H. apply Nat.eqb_eq in H. rewrite dataForSheet_length in H.
  destruct jobs; [reflexivity | discriminate H].
Qed.

(** Every handler returns to its caller: whatever the accessor and the tool
    calls do, no error leaves it.  It ends with [activeAction] at [null],
    except that an email report without a company email leaves
    [activeAction] as it found it. *)
Theorem handler_returns (op : Operation) (w : World Ext) :
  fst (menu_handler op w) = Normal tt
  ∧ activeAction (run (menu_handler op) w)
    = match op with
      | EmailReport =>
          if opt_str_truthy (companyInfo ≫= EstimatePDF.email) then None else activeAction w
      | _ => None
      end.
Proof.
  destruct op; all_outcomes; split; reflexivity.
Qed.

(** Every run of every handler, however it ends, leaves exactly one more
    timeout pending, of 4000 ms: that of its last message.  The messages of
    the stages in between schedule none. *)
Theorem handler_sets_one_timer (op : Operation) (w : World Ext) :
  timers (run (menu_handler op) w) = timers w ++ [4000%Z].
Proof.
  destruct op; all_outcomes; reflexivity.
Qed.

(** A handler makes no request at all, or asks the accessor for the client
    once, first, and then makes tool calls only: at most two for a backup,
    at most one for the other operations, and none when the accessor
    threw. *)
Theorem requests_shape (op : Operation) (w : World Ext) :
  requests (menu_handler op) w = []
  ∨ ∃ f rest,
      requests (menu_handler op) w = GetMcpClient f :: rest
      ∧ forallb is_CallTool rest = true
      ∧ (length rest ≤ tool_calls_of op)%nat
      ∧ (f = None ∨ rest = []).
Proof.
  destruct op; all_outcomes;
    first [ left; reflexivity
          | right; eexists; eexists; split; [reflexivity|];
            cbn [app forallb is_CallTool andb length tool_calls_of];
            split; [reflexivity|]; split; [lia|];
            first [ left; reflexivity | right; reflexivity ] ].
Qed.

(** A request that throws is the last one the handler makes: nothing is
    retried and nothing is attempted after a failure. *)
Theorem nothing_after_a_throw (op : Operation) (w : World Ext) :
  Forall (fun ev => threw ev = false) (removelast (requests (menu_handler op) w)).
Proof.
  destruct op; all_outcomes; cbn [app removelast]; repeat constructor.
Qed.

(** When a request throws, the handler writes one line to the console: the
    label of the operation with the very error that the last request threw;
    and it leaves the menu open or closed as it was. *)
Theorem failure_is_logged (op : Operation) (w : World Ext) :
  Exists (fun ev => threw ev = true) (requests (menu_handler op) w) →
  ∃ ev e,
    last (requests (menu_handler op) w) = Some ev
    ∧ failure_of ev = Some e
    ∧ console (run (menu_handler op) w) = console w ++ [(error_label op, e)]
    ∧ isOpen (run (menu_handler op) w) = isOpen w.
Proof.
  destruct op; all_outcomes; intros H; try (exfalso; none_threw H);
    eexists; eexists; cbn [app last failure_of error_label console isOpen];
    repeat split; reflexivity.
Qed.

(** An operation that is not cut short by its validation and in which no
    request throws ends with its success message as status, the menu closed,
    [activeAction] at [null] and nothing on the console, after two tool
    calls for a backup and one for every other operation. *)
Theorem success_closes_menu (op : Operation) (w : World Ext) :
  short_circuits op jobs companyInfo = false →
  Forall (fun ev => threw ev = false) (requests (menu_handler op) w) →
  status (run (menu_handler op) w) = success_message op
  ∧ isOpen (run (menu_handler op) w) = false
  ∧ activeAction (run (menu_handler op) w) = None
  ∧ console (run (menu_handler op) w) = console w
  ∧ length (List.filter is_CallTool (requests (menu_handler op) w)) = tool_calls_of op.
Proof.
  destruct op; cbn [short_circuits]; intros Hsc; all_outcomes; intros H;
    try some_threw H; try discriminate Hsc; try (repeat split; reflexivity).
  exfalso. apply bool_decide_eq_false in Hsc. apply Hsc, no_rows_no_jobs. exact Hlen.
Qed.

(** An export of at least one job in which no request throws makes one tool
    call after obtaining the client: it creates a spreadsheet titled
    [Jobs-Export-<date>] from the compact JSON text of the projected
    records, of which there is one per job. *)
Theorem export_request (w : World Ext) :
  jobs ≠ [] →
  Forall (fun ev => threw ev = false)
         (requests (handleExportToSheets callTool Date_now rt customers jobs getMcpClient) w) →
  ∃ (now : Z) (call : Sdk.ToolCall),
    requests (handleExportToSheets callTool Date_now rt customers jobs getMcpClient) w
    = [GetMcpClient None; CallTool call None]
    ∧ Sdk.name call = "google_sheets_create_spreadsheet_from_json"
    ∧ Sdk.argument "title" call = Some (Js.Lit ("Jobs-Export-" +:+ iso_date rt now))
    ∧ Sdk.argument "json_data" call
      = Some (Js.JSON_stringify (Js.Arr (map Js.Obj (dataForSheet rt customers jobs))) None)
    ∧ length (dataForSheet rt customers jobs) = length jobs.
Proof.
  intros Hjobs. all_outcomes; intros H; try some_threw H.
  - exfalso. apply Hjobs, no_rows_no_jobs. exact Hlen.
  - match goal with
    | |- context [iso_date rt (Date_now ?x)] => exists (Date_now x)
    end.
    eexists. split; [reflexivity|]. repeat (split; [reflexivity|]).
    apply dataForSheet_length.
Qed.

(** An email report for a company with a non-empty email in which no request
    throws makes one tool call after obtaining the client: it sends an email
    to exactly that address, with the subject "Business Summary Report - "
    followed by the local date, and with the business report -- generated
    after the client was obtained -- as body. *)
Theorem email_request (w : World Ext) (address : string) :
  companyInfo ≫= EstimatePDF.email = Some address →
  address ≠ EmptyString →
  Forall (fun ev => threw ev = false)
         (requests (handleEmailReport callTool Date_now rt customers jobs companyInfo
                                      getMcpClient) w) →
  ∃ (call : Sdk.ToolCall) (w0 : World Ext) (report : string),
    requests (handleEmailReport callTool Date_now rt customers jobs companyInfo getMcpClient) w
    = [GetMcpClient None; CallTool call None]
    ∧ Sdk.name call = "gmail_send_email"
    ∧ Sdk.argument "to" call = Some (Js.Lit address)
    ∧ Sdk.argument "subject" call
      = Some (Js.Lit ("Business Summary Report - "
                      +:+ Js.Date_toLocaleDateString rt (Date_now (ext w0))))
    ∧ generateReportContent Date_now rt customers jobs w0 = (Normal report, w0)
    ∧ Sdk.argument "body" call = Some (Js.Lit report).
Proof.
  intros Hmail Hne. unfold_handler. rewrite Hmail.
  assert (Ht : opt_str_truthy (Some address) = true)
    by (destruct address; [contradiction Hne; reflexivity | reflexivity]).
  rewrite Ht. cbn [negb default]. repeat next_outcome.
  all: rewrite <- ?app_assoc; rewrite ?drop_app_length, ?drop_all; intros H; try some_threw H.
  match goal with
  | |- context [Js.Date_toLocaleDateString rt (Date_now ?x)] =>
      eexists;
      exists {| isOpen := isOpen w; status := status w; activeAction := activeAction w;
                timers := timers w; console := console w; trace := trace w; ext := x |}
  end.
  eexists. split; [reflexivity|]. repeat (split; [reflexivity|]). reflexivity.
Qed.

(** A document report in which no request throws makes one tool call after
    obtaining the client: it creates a document titled
    [Business-Summary-Report-<date>] whose content is the business report,
    generated after the client was obtained. *)
Theorem doc_request (w : World Ext) :
  Forall (fun ev => threw ev = false)
         (requests (handleCreateDocReport callTool Date_now rt customers jobs getMcpClient) w) →
  ∃ (call : Sdk.ToolCall) (w0 : World Ext) (report : string),
    requests (handleCreateDocReport callTool Date_now rt customers jobs getMcpClient) w
    = [GetMcpClient None; CallTool call None]
    ∧ Sdk.name call = "google_docs_create_document_from_text"
    ∧ Sdk.argument "title" call
      = Some (Js.Lit ("Business-Summary-Report-" +:+ iso_date rt (Date_now (ext w0))))
    ∧ generateReportContent Date_now rt customers jobs w0 = (Normal report, w0)
    ∧ Sdk.argument "content" call = Some (Js.Lit report).
Proof.
  all_outcomes; intros H; try some_threw H.
  match goal with
  | |- context [iso_date rt (Date_now ?x)] =>
      eexists;
      exists {| isOpen := isOpen w; status := status w; activeAction := activeAction w;
                timers := timers w; console := console w; trace := trace w; ext := x |}
  end.
  eexists. split; [reflexivity|]. repeat (split; [reflexivity|]). reflexivity.
Qed.


(** After an operation that is not cut short and in which no request throws,
    the component renders its success message and nothing else. *)
Theorem success_is_rendered (op : Operation) (w : World Ext) :
  short_circuits op jobs companyInfo = false →
  Forall (fun ev => threw ev = false) (requests (menu_handler op) w) →
  rendered_texts (run (menu_handler op) w) = [success_message op].
Proof.
  destruct op; cbn [short_circuits]; intros Hsc; all_outcomes; intros H;
    try some_threw H; try discriminate Hsc; try reflexivity.
  exfalso. apply bool_decide_eq_false in Hsc. apply Hsc, no_rows_no_jobs. exact Hlen.
Qed.

End MenuFacts.
(** ** Runs over the sample outside world *)

Section MenuSamples.

Import CloudSync.

(** An email report whose connect is refused. *)
Lemma failure_is_logged_witness :
  let w := Samples.idle (Samples.outside [Some "offline"] []) in
  let h := Samples.handler [Samples.acme] [Samples.job_E1 0]
                           (Samples.company (Some "owner@example.com")) EmailReport in
  Exists (fun ev => threw ev = true) (requests h w)
  ∧ console (run h w) = [("Email report failed:", "offline")]
  ∧ isOpen (run h w) = true.
Proof.
  cbv zeta.
  assert (H : Exists (fun ev => threw ev = true)
                (requests (Samples.handler [Samples.acme] [Samples.job_E1 0]
                             (Samples.company (Some "owner@example.com")) EmailReport)
                          (Samples.idle (Samples.outside [Some "offline"] [])))).
  { vm_compute. apply Exists_cons_hd. reflexivity. }
  split; [exact H|].
  destruct (failure_is_logged Samples.callTool Samples.clock Samples.runtime
              [Samples.acme] [Samples.job_E1 0] (Samples.company (Some "owner@example.com"))
              Samples.getMcpClient EmailReport _ H) as (ev & e & Hlast & He & Hc & Ho).
  split; [reflexivity | exact Ho].
Defined.

(** A document report in which everything succeeds. *)
Lemma success_closes_menu_witness :
  let w := Samples.idle (Samples.outside [] []) in
  let h := Samples.handler [Samples.acme] [Samples.job_E1 0] (Samples.company None)
                           CreateDocReport in
  Forall (fun ev => threw ev = false) (requests h w)
  ∧ status (run h w) = "✅ Report created!"
  ∧ isOpen (run h w) = false.
Proof.
  cbv zeta.
  assert (H : Forall (fun ev => threw ev = false)
                (requests (Samples.handler [Samples.acme] [Samples.job_E1 0]
                             (Samples.company None) CreateDocReport)
                          (Samples.idle (Samples.outside [] [])))).
  { vm_compute. repeat constructor. }
  split; [exact H|].
  destruct (success_closes_menu Samples.callTool Samples.clock Samples.runtime
              [Samples.acme] [Samples.job_E1 0] (Samples.company None)
              Samples.getMcpClient CreateDocReport _ eq_refl H) as (Hs & Ho & _).
  split; assumption.
Defined.

(** An export of one job in which everything succeeds. *)
Lemma export_request_witness :
  let w := Samples.idle (Samples.outside [] []) in
  let h := handleExportToSheets Samples.callTool Samples.clock Samples.runtime
             [Samples.acme] [Samples.job_E1 0] Samples.getMcpClient in
  Forall (fun ev => threw ev = false) (requests h w)
  ∧ ∃ call,
      requests h w = [GetMcpClient None; CallTool call None]
      ∧ Sdk.argument "title" call = Some (Js.Lit "Jobs-Export-2024-03-09").
Proof.
  cbv zeta.
  assert (H : Forall (fun ev => threw ev = false)
                (requests (handleExportToSheets Samples.callTool Samples.clock Samples.runtime
                             [Samples.acme] [Samples.job_E1 0] Samples.getMcpClient)
                          (Samples.idle (Samples.outside [] [])))).
  { vm_compute. repeat constructor. }
  split; [exact H|].
  destruct (export_request Samples.callTool Samples.clock Samples.runtime
              [Samples.acme] [Samples.job_E1 0] Samples.getMcpClient _
              ltac:(discriminate) H) as (now & call & Hreq & _ & Ht & _).
  exists call. split; [exact Hreq | exact Ht].
Defined.

(** An email report to a configured address in which everything succeeds. *)
Lemma email_request_witness :
  let w := Samples.idle (Samples.outside [] []) in
  let h := handleEmailReport Samples.callTool Samples.clock Samples.runtime
             [Samples.acme] [Samples.job_E1 0] (Samples.company (Some "owner@example.com"))
             Samples.getMcpClient in
  Forall (fun ev => threw ev = false) (requests h w)
  ∧ ∃ call,
      requests h w = [GetMcpClient None; CallTool call None]
      ∧ Sdk.argument "to" call = Some (Js.Lit "owner@example.com")
      ∧ Sdk.argument "subject" call = Some (Js.Lit "Business Summary Report - 3/9/2024").
Proof.
  cbv zeta.
  assert (H : Forall (fun ev => threw ev = false)
                (requests (handleEmailReport Samples.callTool Samples.clock Samples.runtime
                             [Samples.acme] [Samples.job_E1 0]
                             (Samples.company (Some "owner@example.com"))
                             Samples.getMcpClient)
                          (Samples.idle (Samples.outside [] [])))).
  { vm_compute. repeat constructor. }
  split; [exact H|].
  destruct (email_request Samples.callTool Samples.clock Samples.runtime
              [Samples.acme] [Samples.job_E1 0] (Samples.company (Some "owner@example.com"))
              Samples.getMcpClient _ "owner@example.com" eq_refl ltac:(discriminate) H)
    as (call & w0 & report & Hreq & _ & Hto & Hsubj & _).
  exists call. split; [exact Hreq|]. split; [exact Hto | exact Hsubj].
Defined.

(** A document report in which everything succeeds. *)
Lemma doc_request_witness :
  let w := Samples.idle (Samples.outside [] []) in
  let h := handleCreateDocReport Samples.callTool Samples.clock Samples.runtime
             [Samples.acme] [Samples.job_E1 0] Samples.getMcpClient in
  Forall (fun ev => threw ev = false) (requests h w)
  ∧ ∃ call,
      requests h w = [GetMcpClient None; CallTool call None]
      ∧ Sdk.argument "title" call = Some (Js.Lit "Business-Summary-Report-2024-03-09").
Proof.
  cbv zeta.
  assert (H : Forall (fun ev => threw ev = false)
                (requests (handleCreateDocReport Samples.callTool Samples.clock
                             Samples.runtime [Samples.acme] [Samples.job_E1 0]
                             Samples.getMcpClient)
                          (Samples.idle (Samples.outside [] [])))).
  { vm_compute. repeat constructor. }
  split; [exact H|].
  destruct (doc_request Samples.callTool Samples.clock Samples.runtime
              [Samples.acme] [Samples.job_E1 0] Samples.getMcpClient _ H)
    as (call & w0 & report & Hreq & _ & Ht & _).
  exists call. split; [exact Hreq | exact Ht].
Defined.


(** An email report in which everything succeeds. *)
Lemma success_is_rendered_witness :
  let w := Samples.idle (Samples.outside [] []) in
  let h := Samples.handler [Samples.acme] [Samples.job_E1 0]
                           (Samples.company (Some "owner@example.com")) EmailReport in
  Forall (fun ev => threw ev = false) (requests h w)
  ∧ rendered_texts (run h w) = ["✅ Email sent!"].
Proof.
  cbv zeta.
  assert (H : Forall (fun ev => threw ev = false)
                (requests (Samples.handler [Samples.acme] [Samples.job_E1 0]
                             (Samples.company (Some "owner@example.com")) EmailReport)
                          (Samples.idle (Samples.outside [] [])))).
  { vm_compute. repeat constructor. }
  split; [exact H|].
  exact (success_is_rendered Samples.callTool Samples.clock Samples.runtime
           [Samples.acme] [Samples.job_E1 0] (Samples.company (Some "owner@example.com"))
           Samples.getMcpClient EmailReport _ eq_refl H).
Defined.

End MenuSamples.

(* ===================================================================== *)
(** * The projected records and the report at their edges *)
(* ===================================================================== *)

Section RowFacts.

Import CloudSync.

Variable rt : Js.Runtime.
Variable customers : list EstimatePDF.CustomerInfo.
Variable jobs : list Db.EstimateRecord.

Lemma opt_str_or_else_nonempty (o : option string) : opt_str_or_else o "N/A" ≠ EmptyString.
Proof.
  unfold opt_str_or_else. destruct o as [[|c s]|]; cbn; discriminate.
Qed.

Lemma find_customer_none (job : Db.EstimateRecord) :
  (∀ c, c ∈ customers → EstimatePDF.id c ≠ Db.customerId job) →
  find_customer customers job = None.
Proof.
  unfold find_customer. intros H.
  induction customers as [|c cs IH]; [reflexivity|].
  cbn [List.find]. destruct (Z.eqb_spec (EstimatePDF.id c) (Db.customerId job)) as [E|_].
  - exfalso. apply (H c); [constructor | exact E].
  - apply IH. intros c' Hc'. apply H. constructor. exact Hc'.
Qed.

(** The record the export builds for the job at a position sits at the same
    position and has the nine columns in their fixed order.  Its customer
    name and customer address are never empty; both are "N/A" when no
    customer has the job's customer id. *)
Theorem sheet_rows (i : nat) (job : Db.EstimateRecord) :
  jobs !! i = Some job →
  ∃ row name address,
    dataForSheet rt customers jobs !! i = Some row
    ∧ row.*1 = ["Estimate Number"; "Customer Name"; "Customer Address"; "Status";
                "Creation Date"; "Quote Amount"; "Total Board Feet"; "Open Cell Sets";
                "Closed Cell Sets"]
    ∧ Js.get "Estimate Number" row = Some (Js.Str (Db.estimateNumber job))
    ∧ Js.get "Customer Name" row = Some (Js.Str name) ∧ name ≠ EmptyString
    ∧ Js.get "Customer Address" row = Some (Js.Str address) ∧ address ≠ EmptyString
    ∧ ((∀ c, c ∈ customers → EstimatePDF.id c ≠ Db.customerId job) →
       name = "N/A" ∧ address = "N/A").
Proof.
  intros Hi. unfold dataForSheet.
  match goal with |- context [map ?f jobs] => change (map f jobs) with (f <$> jobs) end.
  rewrite list_lookup_fmap, Hi. cbn [fmap option_fmap option_map].
  eexists. eexists. eexists. split; [reflexivity|]. split; [reflexivity|].
  split; [reflexivity|]. split; [reflexivity|].
  split; [apply opt_str_or_else_nonempty|].
  split; [reflexivity|].
  split; [apply opt_str_or_else_nonempty|].
  intros Hnone. rewrite (find_customer_none job Hnone). split; reflexivity.
Qed.

End RowFacts.

(** A job of a customer that is not in the list. *)
Lemma sheet_rows_witness :
  [Samples.job_E1 0] !! 0%nat = Some (Samples.job_E1 0)
  ∧ ∃ row,
      CloudSync.dataForSheet Samples.runtime [] [Samples.job_E1 0] !! 0%nat = Some row
      ∧ Js.get "Customer Name" row = Some (Js.Str "N/A")
      ∧ Js.get "Customer Address" row = Some (Js.Str "N/A").
Proof.
  split; [reflexivity|].
  destruct (sheet_rows Samples.runtime [] [Samples.job_E1 0] 0 (Samples.job_E1 0) eq_refl)
    as (row & name & address & Hrow & _ & _ & Hn & _ & Ha & _ & Hna).
  destruct Hna as [-> ->].
  { intros c Hc. apply elem_of_nil in Hc. destruct Hc. }
  exists row. split; [exact Hrow|]. split; assumption.
Defined.

Section ReportEdges.

Import Js CloudSync.

Context {Ext : Type}.
Variable Date_now : Ext -> Z.
Variable rt : Runtime.
Variable customers : list EstimatePDF.CustomerInfo.
Variable jobs : list Db.EstimateRecord.

Ltac find_run :=
  first [ solve [apply includes_start; repeat apply starts_with_append; apply starts_with_here]
        | apply includes_skip; find_run ].

Lemma filter_status_nil (s : Db.JobStatus) :
  Forall (fun j => Db.status j ≠ s) jobs →
  List.filter (fun j => Db.JobStatus_eqb (Db.status j) s) jobs = [].
Proof.
  induction 1 as [|j js Hj _ IH]; [reflexivity|].
  cbn [List.filter]. destruct (Db.status j), s; cbn; try exact IH; contradiction Hj; reflexivity.
Qed.

(** When no job is paid and none is invoiced -- in particular when there is
    no job -- the report shows "$0.00" as total revenue and as outstanding
    receivables. *)
Theorem report_without_revenue (w : World Ext) :
  Forall (fun j => Db.status j ≠ Db.paid) jobs →
  Forall (fun j => Db.status j ≠ Db.invoiced) jobs →
  ∃ report,
    generateReportContent Date_now rt customers jobs w = (Normal report, w)
    ∧ includes ("- **Total Revenue (Paid):** $0.00" +:+ newline) report = true
    ∧ includes ("- **Outstanding A/R (Invoiced):** $0.00" +:+ newline) report = true.
Proof.
  intros Hp Hi. eexists. split; [reflexivity|].
  rewrite (filter_status_nil _ Hp), (filter_status_nil _ Hi). cbn [fold_left].
  change (toFixed2_text rt zero) with "0.00".
  change ("- **Total Revenue (Paid):** $0.00" +:+ newline)
    with ("- **Total Revenue (Paid):** $" +:+ "0.00" +:+ newline).
  change ("- **Outstanding A/R (Invoiced):** $0.00" +:+ newline)
    with ("- **Outstanding A/R (Invoiced):** $" +:+ "0.00" +:+ newline).
  split; find_run.
Qed.

End ReportEdges.

(** One job that is still an estimate. *)
Lemma report_without_revenue_witness :
  let jobs := [Samples.job "E-9" 9000 Db.estimate 1200] in
  Forall (fun j => Db.status j ≠ Db.paid) jobs
  ∧ ∃ report,
      CloudSync.generateReportContent Samples.clock Samples.runtime [Samples.acme] jobs
        (Samples.idle (Samples.outside [] []))
      = (CloudSync.Normal report, Samples.idle (Samples.outside [] []))
      ∧ Js.includes ("- **Total Revenue (Paid):** $0.00" +:+ Js.newline) report = true.
Proof.
  cbv zeta.
  assert (Hp : Forall (fun j => Db.status j ≠ Db.paid) [Samples.job "E-9" 9000 Db.estimate 1200])
    by (repeat constructor; discriminate).
  assert (Hi : Forall (fun j => Db.status j ≠ Db.invoiced)
                 [Samples.job "E-9" 9000 Db.estimate 1200])
    by (repeat constructor; discriminate).
  split; [exact Hp|].
  destruct (report_without_revenue Samples.clock Samples.runtime [Samples.acme] _
              (Samples.idle (Samples.outside [] [])) Hp Hi) as (report & Hr & Hrev & _).
  exists report. split; assumption.
Defined.

(** What reaches the backup of a job: a witness for [jobsForBackup_strips]
    at a job with its three attachments and a note. *)
Lemma jobsForBackup_strips_witness :
  ∃ o,
    CloudSync.jobsForBackup [Samples.with_attachments (Samples.job_E1 0)] = [o]
    ∧ Js.get "invoicePdf" o = None
    ∧ Js.get "notes" o = Some (Js.Str "see estimatePdf")
    ∧ Js.get "estimateNumber" o = Some (Js.Str "E-1").
Proof.
  pose proof (jobsForBackup_strips [Samples.with_attachments (Samples.job_E1 0)]) as H.
  apply Forall2_cons_inv_l in H as (o & os & (_ & _ & Hinv & Hkeep) & Hos & Heq).
  apply Forall2_nil_inv_l in Hos. subst os.
  exists o. split; [exact Heq|]. split; [exact Hinv|]. split.
  - rewrite Hkeep; [reflexivity|].
    rewrite !elem_of_cons, elem_of_nil. intros [H|[H|[H|[]]]]; discriminate H.
  - rewrite Hkeep; [reflexivity|].
    rewrite !elem_of_cons, elem_of_nil. intros [H|[H|[H|[]]]]; discriminate H.
Defined.

(* ===================================================================== *)
(** * The number of hundredths [toFixed] prints *)
(* ===================================================================== *)

Section FixedFacts.

Import Js.

(** For a finite number below 10^21 in magnitude, [toFixed(f)] prints the
    sign of the number and the integer [n] nearest to its magnitude times
    10^f, the larger one on a tie: with the magnitude [m * 2^e], [n] is that
    product when [e] is not negative, and otherwise
    [n - 1/2 <= m * 2^e * 10^f < n + 1/2]. *)
Theorem toFixed_picks_nearest (s : bool) (m : positive) (e : Z) (f : nat) :
  at_least_1e21 m e = false →
  ∃ n : N,
    toFixed (S754_finite s m e) f = FixedDigits s n f
    ∧ if (0 <=? e)%Z
      then Z.of_N n = (Zpos m * 10 ^ Z.of_nat f * 2 ^ e)%Z
      else (2 ^ (- e) * (2 * Z.of_N n - 1) <= 2 * (Zpos m * 10 ^ Z.of_nat f)
            < 2 ^ (- e) * (2 * Z.of_N n + 1))%Z.
Proof.
  intros Hbig. exists (scaled_round m e f). split.
  - cbn [toFixed]. rewrite Hbig. reflexivity.
  - unfold scaled_round. set (num := (Zpos m * 10 ^ Z.of_nat f)%Z).
    assert (Hnum : (0 < num)%Z)
      by (unfold num; apply Z.mul_pos_pos; [lia | apply Z.pow_pos_nonneg; lia]).
    destruct (0 <=? e)%Z eqn:He.
    + apply Z.leb_le in He. rewrite Z2N.id; [reflexivity|].
      apply Z.mul_nonneg_nonneg; [lia | apply Z.pow_nonneg; lia].
    + apply Z.leb_gt in He.
      assert (Hk : (0 < 2 ^ (- e))%Z) by (apply Z.pow_pos_nonneg; lia).
      replace (1 - e)%Z with (Z.succ (- e)) by lia. rewrite Z.pow_succ_r by lia.
      set (k := (2 ^ (- e))%Z) in *.
      assert (Hq : (0 <= (2 * num + k) / (2 * k))%Z) by (apply Z.div_pos; lia).
      rewrite Z2N.id by exact Hq.
      pose proof (Z.div_mod (2 * num + k) (2 * k) ltac:(lia)) as Hdm.
      pose proof (Z.mod_pos_bound (2 * num + k) (2 * k) ltac:(lia)) as Hmod.
      set (q := ((2 * num + k) / (2 * k))%Z) in *.
      set (r := ((2 * num + k) mod (2 * k))%Z) in *.
      nia.
Qed.

End FixedFacts.

(** The number written 1.005: 100 hundredths. *)
Lemma toFixed_picks_nearest_witness :
  Js.at_least_1e21 4526117625507348 (-52) = false
  ∧ ∃ n : N,
      Js.toFixed Samples.lit_1_005 2 = Js.FixedDigits false n 2
      ∧ (2 ^ 52 * (2 * Z.of_N n - 1) <= 2 * (4526117625507348 * 10 ^ 2)
         < 2 ^ 52 * (2 * Z.of_N n + 1))%Z.
Proof.
  split; [reflexivity|].
  exact (toFixed_picks_nearest false 4526117625507348 (-52) 2 eq_refl).
Defined.

(* ===================================================================== *)
(** * The accessor under the menu *)
(* ===================================================================== *)

Section AccessorMore.

Context {Net : Type}.
Variable connect : Mcp.Client -> string -> Net -> option Js.Error * Net.

(** Whatever the state, a call that returns a client leaves that client in
    the slot; a call can throw only when it found the slot empty, and then
    leaves it empty.  A call never lowers the allocator, and it adds to the
    connect log one entry, the proxy-wrapped server URL, exactly when it
    found the slot empty, and nothing otherwise. *)
Theorem getMcpClient_result_and_cache (st st' : Mcp.State Net) (r : Js.result Mcp.Client) :
  Mcp.getMcpClient connect st = (r, st') →
  match r with
  | Js.Resolved c => Mcp.mcpClient st' = Some c
  | Js.Rejected _ => Mcp.mcpClient st = None ∧ Mcp.mcpClient st' = None
  end
  ∧ (Mcp.next_ref st ≤ Mcp.next_ref st')%nat
  ∧ Mcp.connects st'
    = Mcp.connects st
      ++ match Mcp.mcpClient st with
         | None => [Mcp.PROXY_URL +:+ Mcp.serverUrl]
         | Some _ => []
         end.
Proof.
  unfold Mcp.getMcpClient. destruct (Mcp.mcpClient st) as [c|] eqn:Hc.
  - intros H. injection H as <- <-. rewrite Hc, app_nil_r. repeat split. lia.
  - cbv zeta. destruct (connect _ _ _) as [[e|] net']; intros H; injection H as <- <-;
      cbn [Mcp.mcpClient Mcp.next_ref Mcp.connects]; repeat split; lia.
Qed.

End AccessorMore.

(** A refused connect. *)
Lemma getMcpClient_result_and_cache_witness :
  ∃ st',
    Mcp.getMcpClient Samples.connect (Samples.unconnected [Some "offline"])
    = (Js.Rejected "offline", st')
    ∧ Mcp.mcpClient st' = None
    ∧ Mcp.connects st' = [Mcp.PROXY_URL +:+ Mcp.serverUrl].
Proof.
  eexists. split; [reflexivity|].
  destruct (getMcpClient_result_and_cache Samples.connect
              (Samples.unconnected [Some "offline"]) _ _ eq_refl) as ((_ & H1) & _ & H2).
  split; [exact H1 | exact H2].
Defined.

Section WiringFacts.

Import CloudSync.

Context {Net : Type}.
Variable connect : Mcp.Client -> string -> Net -> option Js.Error * Net.
Variable tool : Mcp.Client -> Sdk.ToolCall -> Net -> Js.result unit * Net.
Variable clock : Net -> Z.
Variable rt : Js.Runtime.
Variable customers : list EstimatePDF.CustomerInfo.
Variable jobs : list Db.EstimateRecord.
Variable companyInfo : option EstimatePDF.CompanyInfo.

Local Abbreviation wired := (Wiring.handler connect tool clock rt customers jobs companyInfo).

Ltac unfold_wired :=
  cbv [Wiring.handler CloudSync.handler handleBackupToDrive handleExportToSheets
       handleCreateDocReport
       handleEmailReport generateReportContent requests run function bind ret return_
       try_catch_finally showStatus setStatus setActiveAction setIsOpen
       setTimeout_clear_status console_error await await_getMcpClient await_callTool
       new_Date default_duration Z.ltb Z.compare];
  cbn [fst snd isOpen status activeAction timers console trace ext].

Ltac wired_outcome :=
  match goal with
  | |- context [tool ?c ?r ?x] =>
      let E := fresh "Hcall" in destruct (tool c r x) as [[[]|?] ?] eqn:E
  | |- context [Nat.eqb (length ?l) 0] =>
      let E := fresh "Hlen" in destruct (Nat.eqb (length l) 0) eqn:E
  | |- context [opt_str_truthy ?o] =>
      let E := fresh "Hemail" in destruct (opt_str_truthy o) eqn:E
  end;
  cbn [fst snd negb isOpen status activeAction timers console trace ext
       Mcp.mcpClient Mcp.connects Mcp.net Mcp.next_ref Mcp.console].

Lemma wired_keeps_connection (op : Operation) (w : World (Mcp.State Net)) (c : Mcp.Client) :
  Mcp.mcpClient (ext w) = Some c →
  Mcp.mcpClient (ext (run (wired op) w)) = Some c
  ∧ Mcp.connects (ext (run (wired op) w)) = Mcp.connects (ext w)
  ∧ Mcp.console (ext (run (wired op) w)) = Mcp.console (ext w).
Proof.
  intros Hc. destruct op; unfold_wired; cbv [Wiring.callTool];
    repeat first
      [ rewrite (getMcpClient_cached connect (ext w) c Hc);
        cbn [fst snd negb isOpen status activeAction timers console trace ext]
      | wired_outcome ];
    auto.
Qed.

(** With the accessor of [Mcp] as the [getMcpClient] prop: once the slot
    holds a client, any operations run one after the other, whatever their
    tool calls do and however each of them ends, perform no connect, and the
    slot holds the same client afterwards. *)
Theorem one_connection_serves_all (ops : list Operation) (w : World (Mcp.State Net))
  (c : Mcp.Client) :
  Mcp.mcpClient (ext w) = Some c →
  Mcp.mcpClient (ext (Wiring.run_all connect tool clock rt customers jobs companyInfo ops w))
  = Some c
  ∧ Mcp.connects (ext (Wiring.run_all connect tool clock rt customers jobs companyInfo ops w))
    = Mcp.connects (ext w).
Proof.
  revert w. induction ops as [|op ops IH]; intros w Hc; [split; [exact Hc | reflexivity]|].
  cbn [Wiring.run_all fold_left].
  destruct (wired_keeps_connection op w c Hc) as (H1 & H2 & _).
  destruct (IH _ H1) as [H3 H4]. split; [exact H3|].
  unfold Wiring.run_all in H4. rewrite H4. exact H2.
Qed.

(** With the accessor of [Mcp] as the [getMcpClient] prop: an operation that
    starts with the slot empty and obtains the client has performed exactly
    one connect, and leaves the newly built client in the slot whether or
    not its tool calls then succeed. *)
Theorem first_operation_connects (op : Operation) (w : World (Mcp.State Net))
  (rest : list Event) :
  Mcp.mcpClient (ext w) = None →
  requests (wired op) w = GetMcpClient None :: rest →
  Mcp.mcpClient (ext (run (wired op) w)) = Some (Mcp.new_Client (Mcp.next_ref (ext w)))
  ∧ Mcp.connects (ext (run (wired op) w))
    = Mcp.connects (ext w) ++ [Mcp.PROXY_URL +:+ Mcp.serverUrl].
Proof.
  intros Hn. destruct op; unfold_wired; cbv [Wiring.callTool];
    try wired_outcome;
    unfold Mcp.getMcpClient; rewrite ?Hn; cbv zeta;
    try (destruct (connect _ _ _) as [[e|] net']);
    cbn [fst snd negb isOpen status activeAction timers console trace ext
         Mcp.mcpClient Mcp.connects Mcp.net Mcp.next_ref Mcp.console];
    repeat wired_outcome; rewrite <- ?app_assoc, ?drop_app_length, ?drop_all;
    intros H; try discriminate H; split; reflexivity.
Qed.

End WiringFacts.

(** A backup, an email report and an export over a connected accessor. *)
Lemma one_connection_serves_all_witness :
  let ops := [CloudSync.BackupToDrive; CloudSync.EmailReport; CloudSync.ExportToSheets] in
  let w' := Wiring.run_all Samples.calm_connect Samples.calm_tool (fun net => net)
              Samples.runtime [Samples.acme] [Samples.job_E1 0]
              (Samples.company (Some "owner@example.com")) ops
              (Samples.at_rest Samples.connected) in
  Mcp.mcpClient Samples.connected = Some (Mcp.new_Client 0)
  ∧ Mcp.mcpClient (CloudSync.ext w') = Some (Mcp.new_Client 0)
  ∧ Mcp.connects (CloudSync.ext w') = [Mcp.PROXY_URL +:+ Mcp.serverUrl]
  ∧ length (CloudSync.trace w') = 7.
Proof.
  cbv zeta. split; [reflexivity|].
  destruct (one_connection_serves_all Samples.calm_connect Samples.calm_tool (fun net => net)
              Samples.runtime [Samples.acme] [Samples.job_E1 0]
              (Samples.company (Some "owner@example.com"))
              [CloudSync.BackupToDrive; CloudSync.EmailReport; CloudSync.ExportToSheets]
              (Samples.at_rest Samples.connected) (Mcp.new_Client 0) eq_refl) as [H1 H2].
  split; [exact H1|]. split; [exact H2 | reflexivity].
Defined.

(** A first backup over an accessor that has not connected yet. *)
Lemma first_operation_connects_witness :
  let h := Wiring.handler Samples.calm_connect Samples.calm_tool (fun net => net)
             Samples.runtime [Samples.acme] [Samples.job_E1 0] (Samples.company None)
             CloudSync.BackupToDrive in
  let w := Samples.at_rest Samples.not_connected in
  Mcp.mcpClient (CloudSync.ext w) = None
  ∧ length (CloudSync.requests h w) = 3
  ∧ Mcp.mcpClient (CloudSync.ext (CloudSync.run h w)) = Some (Mcp.new_Client 0)
  ∧ Mcp.connects (CloudSync.ext (CloudSync.run h w)) = [Mcp.PROXY_URL +:+ Mcp.serverUrl].
Proof.
  cbv zeta. split; [reflexivity|]. split; [vm_compute; reflexivity|].
  eapply (first_operation_connects Samples.calm_connect Samples.calm_tool (fun net => net)
            Samples.runtime [Samples.acme] [Samples.job_E1 0] (Samples.company None)
            CloudSync.BackupToDrive (Samples.at_rest Samples.not_connected)).
  - reflexivity.
  - vm_compute. reflexivity.
Defined.

(* ===================================================================== *)
(** * More on the editor: removal, configuration, submission *)
(* ===================================================================== *)

Section EditorMore.
Import Types AutomationEditor.

Lemma with_actions_same (a : Automation) : with_actions a (actions a) = a.
Proof. destruct a; reflexivity. Qed.

Lemma filter_other_ids (actionId : Z) (acts : list Action) :
  actionId ∉ map id acts →
  List.filter (fun action => negb (id action =? actionId)%Z) acts = acts.
Proof.
  induction acts as [|a rest IH]; intros H; [reflexivity|].
  cbn [List.filter map] in *. apply not_elem_of_cons in H as [Hne Hrest].
  destruct (Z.eqb_spec (id a) actionId) as [E|_]; [congruence|].
  cbn [negb]. rewrite (IH Hrest). reflexivity.
Qed.

(** Removing an identifier that no action carries changes nothing. *)
Theorem removeAction_absent (actionId : Z) (prev : Automation) :
  actionId ∉ action_ids prev → removeAction actionId prev = prev.
Proof.
  intros H. unfold removeAction. rewrite (filter_other_ids _ _ H). apply with_actions_same.
Qed.

(** Adding an action and then removing the action just added gives back
    the automation as it was, provided the clock reading the new action was
    stamped with is not the identifier of an action already listed. *)
Theorem add_then_remove (now : Z) (prev : Automation) (h : nat) :
  now ∉ action_ids prev → removeAction now (fst (addAction now prev h)) = prev.
Proof.
  intros H. unfold removeAction, addAction, and_then, new, pure. cbn [fst actions with_actions].
  rewrite List.filter_app, (filter_other_ids _ _ H). cbn [List.filter id].
  rewrite Z.eqb_refl. cbn [negb]. rewrite app_nil_r.
  destruct prev; reflexivity.
Qed.

Lemma sublist_filter_list {A : Type} (p : A -> bool) (l : list A) : sublist (List.filter p l) l.
Proof.
  induction l as [|x l IH]; [constructor|].
  cbn [List.filter]. destruct (p x); [apply sublist_skip | apply sublist_cons]; exact IH.
Qed.

(** [removeAction] keeps the actions that do not carry the identifier, in
    their order, and nothing else.  When the identifiers are distinct and
    the identifier is listed, exactly one action goes. *)
Theorem removeAction_exactly (actionId : Z) (prev : Automation) :
  sublist (actions (removeAction actionId prev)) (actions prev)
  ∧ (∀ a, a ∈ actions (removeAction actionId prev) ↔ a ∈ actions prev ∧ id a ≠ actionId)
  ∧ (distinct_ids prev → actionId ∈ action_ids prev →
     S (length (actions (removeAction actionId prev))) = length (actions prev)).
Proof.
  unfold removeAction. cbn [actions with_actions]. split; [apply sublist_filter_list|]. split.
  - intros a. rewrite !list_elem_of_In, filter_In, negb_true_iff, Z.eqb_neq. reflexivity.
  - unfold distinct_ids, action_ids. induction (actions prev) as [|a rest IH]; intros Hnd Hin.
    + apply elem_of_nil in Hin. destruct Hin.
    + cbn [map List.filter length] in *. apply NoDup_cons in Hnd as [Hna Hnd].
      destruct (Z.eqb_spec (id a) actionId) as [E|E]; cbn [negb length].
      * subst actionId. rewrite (filter_other_ids _ _ Hna). reflexivity.
      * apply elem_of_cons in Hin as [Hin|Hin]; [congruence|].
        rewrite (IH Hnd Hin). reflexivity.
Qed.

Ltac lookup_in_mapped H :=
  match goal with
  | |- context [fst (map_alloc ?f ?xs ?h) !! ?j] =>
      let h1 := fresh "h" in
      destruct (map_alloc_lookup f xs h j _ H) as [h1 ->]
  end.

(** [handleActionConfigChange] on the identifier of a listed action: that
    action keeps its position, identifier and type; its configuration maps
    the field to the new value and every other key as before. *)
Theorem config_change_writes_field (actionId : Z) (configField value : string)
  (prev : Automation) (h : nat) (j : nat) (b : Action) :
  actions prev !! j = Some b → id b = actionId →
  ∃ b',
    actions (fst (handleActionConfigChange actionId configField value prev h)) !! j = Some b'
    ∧ id b' = id b ∧ action_type b' = action_type b
    ∧ action_config b' !! configField = Some value
    ∧ ∀ k, k ≠ configField → action_config b' !! k = action_config b !! k.
Proof.
  intros Hj Hid. rewrite handleActionConfigChange_actions. lookup_in_mapped Hj.
  rewrite Hid, Z.eqb_refl. eexists. split; [reflexivity|]. cbn.
  split; [reflexivity|]. split; [reflexivity|]. split.
  - apply lookup_insert_eq.
  - intros k Hk. apply lookup_insert_ne. congruence.
Qed.

Variable loaded_at : Z.

Lemma dispatch_all_app (evs1 evs2 : list UiEvent) (ed : Editor) :
  dispatch_all loaded_at (evs1 ++ evs2) ed
  = dispatch_all loaded_at evs2 (dispatch_all loaded_at evs1 ed).
Proof. unfold dispatch_all. apply fold_left_app. Qed.

Lemma dispatch_ids (ev : UiEvent) (ed : Editor) :
  same_props ev = true →
  sublist (action_ids (automation (dispatch loaded_at ev ed)))
          (action_ids (automation ed) ++ added_ids [ev]).
Proof.
  intros Hev.
  destruct ev as [ex|v|v|v|b|i v|i k v|now|i]; try discriminate Hev;
    cbn [dispatch added_ids omap list_omap]; unfold setAutomation, pure; cbn [automation];
    rewrite ?app_nil_r; try reflexivity.
  - destruct (status_select_rendered _); reflexivity.
  - destruct (actions (automation ed) !! i) as [a|]; [|reflexivity].
    destruct (handleActionChange _ _ _ _) as [next h'] eqn:E.
    apply (f_equal fst) in E. cbn [fst automation] in *. subst next.
    rewrite handleActionChange_ids. reflexivity.
  - destruct (actions (automation ed) !! i) as [a|]; [|reflexivity].
    destruct (bool_decide _); [|reflexivity].
    destruct (handleActionConfigChange _ _ _ _ _) as [next h'] eqn:E.
    apply (f_equal fst) in E. cbn [fst automation] in *. subst next.
    rewrite handleActionConfigChange_ids. reflexivity.
  - destruct (addAction _ _ _) as [next h'] eqn:E.
    apply (f_equal fst) in E. cbn [fst automation] in *. subst next.
    rewrite addAction_ids. reflexivity.
  - destruct (actions (automation ed) !! i) as [a|]; [|reflexivity].
    destruct (remove_button_rendered _); [|reflexivity].
    cbn [automation]. rewrite removeAction_ids. apply sublist_filter_list.
Qed.

Lemma added_ids_cons (ev : UiEvent) (evs : list UiEvent) :
  added_ids (ev :: evs) = added_ids [ev] ++ added_ids evs.
Proof. destruct ev; reflexivity. Qed.

(** As long as the parent passes in no other automation, the editor never
    reorders actions and never brings one back: the identifiers after any
    events are, in order, some of the identifiers before followed by some of
    the clock readings of the add clicks. *)
Theorem order_is_append_only (evs : list UiEvent) (ed : Editor) :
  forallb same_props evs = true →
  sublist (action_ids (automation (dispatch_all loaded_at evs ed)))
          (action_ids (automation ed) ++ added_ids evs).
Proof.
  revert ed. induction evs as [|ev evs IH]; intros ed Hevs.
  - cbn. rewrite app_nil_r. reflexivity.
  - cbn [forallb] in Hevs. apply andb_true_iff in Hevs as [Hev Hevs].
    cbn [dispatch_all fold_left]. etransitivity; [apply (IH _ Hevs)|].
    rewrite added_ids_cons, app_assoc. apply sublist_app; [|reflexivity].
    apply dispatch_ids. exact Hev.
Qed.

Lemma handleActionChange_automation_id (actionId : Z) (value : ActionType)
  (prev : Automation) (h : nat) :
  automation_id (fst (handleActionChange actionId value prev h)) = automation_id prev.
Proof. unfold handleActionChange, and_then. destruct (map_alloc _ _ _). reflexivity. Qed.

Lemma handleActionConfigChange_automation_id (actionId : Z) (k v : string)
  (prev : Automation) (h : nat) :
  automation_id (fst (handleActionConfigChange actionId k v prev h)) = automation_id prev.
Proof. unfold handleActionConfigChange, and_then. destruct (map_alloc _ _ _). reflexivity. Qed.

Lemma dispatch_automation_id (ev : UiEvent) (ed : Editor) :
  same_props ev = true →
  automation_id (automation (dispatch loaded_at ev ed)) = automation_id (automation ed).
Proof.
  intros Hev.
  destruct ev as [ex|v|v|v|b|i v|i k v|now|i]; try discriminate Hev;
    cbn [dispatch]; unfold setAutomation, pure; cbn [automation]; try reflexivity.
  - destruct (status_select_rendered _); reflexivity.
  - destruct (actions (automation ed) !! i) as [a|]; [|reflexivity].
    destruct (handleActionChange _ _ _ _) as [next h'] eqn:E.
    apply (f_equal fst) in E. cbn [fst automation] in *. subst next.
    apply handleActionChange_automation_id.
  - destruct (actions (automation ed) !! i) as [a|]; [|reflexivity].
    destruct (bool_decide _); [|reflexivity].
    destruct (handleActionConfigChange _ _ _ _ _) as [next h'] eqn:E.
    apply (f_equal fst) in E. cbn [fst automation] in *. subst next.
    apply handleActionConfigChange_automation_id.
  - destruct (actions (automation ed) !! i) as [a|]; [|reflexivity].
    destruct (remove_button_rendered _); reflexivity.
Qed.

Lemma dispatch_all_automation_id (evs : list UiEvent) (ed : Editor) :
  forallb same_props evs = true →
  automation_id (automation (dispatch_all loaded_at evs ed)) = automation_id (automation ed).
Proof.
  revert ed. induction evs as [|ev evs IH]; intros ed Hevs; [reflexivity|].
  cbn [forallb] in Hevs. apply andb_true_iff in Hevs as [Hev Hevs].
  cbn [dispatch_all fold_left]. etransitivity; [apply (IH _ Hevs)|].
  apply dispatch_automation_id. exact Hev.
Qed.

(** As long as the parent passes in no other automation, what
    [handleSubmit] hands to [onSave] carries the identifier of the automation
    the editor was opened with, and none when it was opened without one: no
    control of the form touches it. *)
Theorem submit_keeps_identifier (existing : option Automation) (h : nat) (evs : list UiEvent) :
  forallb same_props evs = true →
  automation_id (handleSubmit (dispatch_all loaded_at evs (mount loaded_at existing h)))
  = existing ≫= automation_id.
Proof.
  intros Hevs. unfold handleSubmit. rewrite (dispatch_all_automation_id _ _ Hevs).
  destruct existing; reflexivity.
Qed.

Lemma map_alloc_Forall {A B : Type} (P : A → Prop) (Q : B → Prop) (f : A → Alloc B)
  (xs : list A) (h : nat) :
  (∀ a h', a ∈ xs → P a → Q (fst (f a h'))) →
  Forall P xs → Forall Q (fst (map_alloc f xs h)).
Proof.
  revert h. induction xs as [|x rest IH]; intros h Hf HP.
  - constructor.
  - rewrite map_alloc_cons. cbn [fst]. apply Forall_cons in HP as [Hx Hrest]. constructor.
    + apply Hf; [constructor | exact Hx].
    + apply IH; [|exact Hrest]. intros a h' Ha. apply Hf. constructor. exact Ha.
Qed.

Lemma same_id_same_action (a : Automation) (b b' : Action) :
  distinct_ids a → b ∈ actions a → b' ∈ actions a → id b = id b' → b = b'.
Proof.
  intros Hnd Hb Hb' Hid.
  apply list_elem_of_lookup in Hb as [i Hi]. apply list_elem_of_lookup in Hb' as [j Hj].
  assert (i = j).
  { apply (NoDup_lookup (action_ids a) i j (id b) Hnd).
    - apply lookup_action_ids. exact Hi.
    - rewrite Hid. apply lookup_action_ids. exact Hj. }
  subst j. congruence.
Qed.

Lemma empty_config_fits (r : nat) (i : Z) (t : ActionType) :
  config_fits {| ref := r; id := i; action_type := t; action_config := ∅ |}.
Proof. intros k [v Hv]. cbn in Hv. rewrite lookup_empty in Hv. discriminate Hv. Qed.

Lemma dispatch_configs_fit (ev : UiEvent) (ed : Editor) :
  distinct_ids (automation ed) → configs_fit (automation ed) →
  timely (fun a => distinct_ids a ∧ configs_fit a) ev ed →
  configs_fit (automation (dispatch loaded_at ev ed)).
Proof.
  intros Hnd Hfit Ht. unfold configs_fit in *.
  destruct ev as [[ex|]|v|v|v|b|i v|i k v|now|i]; cbn [dispatch timely] in *;
    unfold setAutomation, pure; cbn [automation]; try assumption.
  - apply Ht.
  - apply Forall_singleton, empty_config_fits.
  - destruct (status_select_rendered _); cbn; assumption.
  - destruct (actions (automation ed) !! i) as [a|]; [|assumption].
    destruct (handleActionChange _ _ _ _) as [next h'] eqn:E.
    apply (f_equal fst) in E. cbn [fst automation] in *. subst next.
    rewrite handleActionChange_actions.
    apply (map_alloc_Forall config_fits); [|exact Hfit].
    intros b h1 _ Hb. destruct (id b =? id a)%Z; [apply empty_config_fits | exact Hb].
  - destruct (actions (automation ed) !! i) as [a|] eqn:Hi; [|assumption].
    destruct (bool_decide_reflect (k ∈ renderActionConfig a)) as [Hk|_]; [|assumption].
    destruct (handleActionConfigChange _ _ _ _ _) as [next h'] eqn:E.
    apply (f_equal fst) in E. cbn [fst automation] in *. subst next.
    rewrite handleActionConfigChange_actions.
    apply (map_alloc_Forall config_fits); [|exact Hfit].
    intros b h1 Hin Hb. destruct (Z.eqb_spec (id b) (id a)) as [Hid|_]; [|exact Hb].
    assert (b = a).
    { apply (same_id_same_action (automation ed)); auto.
      apply list_elem_of_lookup. exists i. exact Hi. }
    subst b. intros k' Hk'. cbn in *.
    destruct (decide (k = k')) as [<-|Hne]; [exact Hk|].
    rewrite lookup_insert_ne in Hk' by exact Hne. apply Hb. exact Hk'.
  - destruct (addAction _ _ _) as [next h'] eqn:E.
    apply (f_equal fst) in E. cbn [fst automation] in *. subst next.
    cbn. apply Forall_app. split; [exact Hfit|]. apply Forall_singleton, empty_config_fits.
  - destruct (actions (automation ed) !! i) as [a|]; [|assumption].
    destruct (remove_button_rendered _); [|assumption].
    cbn. apply List.Forall_forall. intros b Hb. apply filter_In in Hb as [Hb _].
    apply (proj1 (List.Forall_forall _ _) Hfit). exact Hb.
Qed.

Lemma timely_distinct_of (ev : UiEvent) (ed : Editor) :
  timely (fun a => distinct_ids a ∧ configs_fit a) ev ed → timely distinct_ids ev ed.
Proof. destruct ev as [[ex|]| | | | | | | |]; cbn; try tauto. Qed.

(** Starting from a new automation, or from one with distinct identifiers
    whose configurations fit, and after events that bring in no duplicate
    identifier, every key of the configuration of every action submitted is
    one of the input fields the form shows for the type of that action: a
    change of type leaves no value of the former type behind. *)
Theorem no_stale_config (existing : option Automation) (h : nat) (evs : list UiEvent) :
  (∀ a, existing = Some a → distinct_ids a ∧ configs_fit a) →
  all_timely (fun a => distinct_ids a ∧ configs_fit a) loaded_at evs
             (mount loaded_at existing h) →
  configs_fit (handleSubmit (dispatch_all loaded_at evs (mount loaded_at existing h))).
Proof.
  intros Hex. unfold handleSubmit.
  assert (H0 : distinct_ids (automation (mount loaded_at existing h))
               ∧ configs_fit (automation (mount loaded_at existing h))).
  { destruct existing as [a|]; [apply Hex; reflexivity|]. split.
    - apply EMPTY_AUTOMATION_well_formed.
    - apply Forall_singleton, empty_config_fits. }
  revert H0. generalize (mount loaded_at existing h).
  induction evs as [|ev evs IH]; intros ed [Hnd Hfit] Ht; [exact Hfit|].
  destruct Ht as [Hev Hrest]. cbn [dispatch_all fold_left]. apply IH; [|exact Hrest]. split.
  - apply dispatch_distinct_ids; [exact Hnd | apply timely_distinct_of; exact Hev].
  - apply dispatch_configs_fit; assumption.
Qed.

End EditorMore.

Section EditorMoreSamples.

Import Types AutomationEditor.

Lemma saved_automation_distinct_ids : distinct_ids Samples.saved_automation.
Proof. apply NoDup_singleton. Qed.

Lemma saved_automation_configs_fit : configs_fit Samples.saved_automation.
Proof.
  apply Forall_singleton. intros k [v Hv]. cbn in Hv.
  apply lookup_singleton_Some in Hv as [<- _]. constructor.
Qed.

Lemma not_in_saved_automation (i : Z) :
  i ≠ 500%Z → i ∉ action_ids Samples.saved_automation.
Proof. intros Hne H. apply list_elem_of_singleton in H. contradiction. Qed.

Lemma removeAction_absent_witness :
  (42 ∉ action_ids Samples.saved_automation)%Z
  ∧ removeAction 42 Samples.saved_automation = Samples.saved_automation.
Proof.
  assert (H : 42%Z ∉ action_ids Samples.saved_automation)
    by (apply not_in_saved_automation; lia).
  split; [exact H|]. exact (removeAction_absent 42 Samples.saved_automation H).
Defined.

Lemma add_then_remove_witness :
  (2000 ∉ action_ids Samples.saved_automation)%Z
  ∧ removeAction 2000 (fst (addAction 2000 Samples.saved_automation 1))
    = Samples.saved_automation.
Proof.
  assert (H : 2000%Z ∉ action_ids Samples.saved_automation)
    by (apply not_in_saved_automation; lia).
  split; [exact H|]. exact (add_then_remove 2000 Samples.saved_automation 1 H).
Defined.

(** Removing the only action of the saved automation. *)
Lemma removeAction_exactly_witness :
  distinct_ids Samples.saved_automation
  ∧ 500%Z ∈ action_ids Samples.saved_automation
  ∧ S (length (actions (removeAction 500 Samples.saved_automation)))
    = length (actions Samples.saved_automation).
Proof.
  assert (Hin : 500%Z ∈ action_ids Samples.saved_automation) by constructor.
  split; [exact saved_automation_distinct_ids|]. split; [exact Hin|].
  destruct (removeAction_exactly 500 Samples.saved_automation) as (_ & _ & H).
  exact (H saved_automation_distinct_ids Hin).
Defined.

(** Another URL for the webhook of the saved automation. *)
Lemma config_change_writes_field_witness :
  ∃ b b',
    actions Samples.saved_automation !! 0%nat = Some b ∧ id b = 500%Z
    ∧ actions (fst (handleActionConfigChange 500 "url" "https://example.com/other"
                      Samples.saved_automation 1)) !! 0%nat = Some b'
    ∧ action_type b' = webhook
    ∧ action_config b' !! "url" = Some "https://example.com/other".
Proof.
  eexists.
  destruct (config_change_writes_field 500 "url" "https://example.com/other"
              Samples.saved_automation 1 0 _ eq_refl eq_refl)
    as (b' & Hb' & _ & Htype & Hurl & _).
  exists b'. split; [reflexivity|]. split; [reflexivity|].
  split; [exact Hb'|]. split; [exact Htype | exact Hurl].
Defined.

Lemma order_is_append_only_witness :
  forallb same_props Samples.session = true
  ∧ sublist (action_ids (automation (dispatch_all 1000 Samples.session Samples.new_editor)))
            [1000; 2000]%Z.
Proof.
  split; [reflexivity|].
  exact (order_is_append_only 1000 Samples.session Samples.new_editor eq_refl).
Defined.

Lemma submit_keeps_identifier_witness :
  forallb same_props Samples.session = true
  ∧ automation_id
      (handleSubmit
         (dispatch_all 1000 Samples.session (mount 1000 (Some Samples.saved_automation) 1)))
    = Some 7%Z.
Proof.
  split; [reflexivity|].
  exact (submit_keeps_identifier 1000 (Some Samples.saved_automation) 1 Samples.session
           eq_refl).
Defined.

(** The sample session on the saved automation: its webhook is kept, the
    action added is made an email and given a subject. *)
Lemma saved_session_timely :
  all_timely (fun a => distinct_ids a ∧ configs_fit a) 1000
    [AddActionClick 2000; ActionTypeSelect 0 send_email;
     ActionConfigInput 0 "email_subject" "Thank you"]
    (mount 1000 (Some Samples.saved_automation) 1).
Proof.
  cbn. repeat split. intros H. apply list_elem_of_singleton in H. discriminate H.
Qed.

Lemma no_stale_config_witness :
  let evs := [AddActionClick 2000; ActionTypeSelect 0 send_email;
              ActionConfigInput 0 "email_subject" "Thank you"] in
  let submitted :=
    handleSubmit (dispatch_all 1000 evs (mount 1000 (Some Samples.saved_automation) 1)) in
  all_timely (fun a => distinct_ids a ∧ configs_fit a) 1000 evs
    (mount 1000 (Some Samples.saved_automation) 1)
  ∧ configs_fit submitted
  ∧ (action_type <$> actions submitted) = [send_email; create_task]
  ∧ ∃ b, actions submitted !! 0%nat = Some b ∧ action_config b !! "url" = None.
Proof.
  cbv zeta. split; [exact saved_session_timely|]. split.
  - apply (no_stale_config 1000 (Some Samples.saved_automation) 1).
    + intros a H. injection H as <-.
      split; [exact saved_automation_distinct_ids | exact saved_automation_configs_fit].
    + exact saved_session_timely.
  - split; [reflexivity|]. eexists. split; [reflexivity|]. reflexivity.
Defined.

End EditorMoreSamples.
